(** * ansible-agent: the AWX relay service of [src/ansible_agent/app.py]

    A shallow embedding of the hostname sanitizer, the controller client
    [trigger_awx_job] and the [/provision] handler, with the properties the
    specification states about them.

    Conventions of the embedding.
    - A Python [str] is a Rocq [string]; every [ascii] stands for one code
      point in U+0000..U+00FF, so [length] is Python's [len].  The tables of
      [str.isspace] and [str.lower] are those of CPython on that range.
    - A regular expression is a term of [regex] that follows the pattern text
      of the source; [re.match] and [re.search] are run by derivatives.
    - A JSON document is a term of [json] (numbers are integers).
    - Calls of [logger] only write to the process log and are left out; an
      expression evaluated for a log line is kept where it can raise.
    - An outbound HTTP call asks an oracle for its outcome and is appended to
      the list of calls made; a Python exception is the [Raised] outcome. *)

From Stdlib Require Import Bool Arith ZArith NArith List Ascii String Lia.
From Stdlib Require Import DecimalString.
Import ListNotations.
Local Open Scope string_scope.

(** ** Python strings *)

Module PyStr.

Definition code (c : ascii) : N := N_of_ascii c.

Definition between (lo hi : N) (c : ascii) : bool :=
  ((lo <=? code c) && (code c <=? hi))%N.

(** [str.isspace] on one code point below U+0100: TAB..CR, FS..US, SPACE,
    NEL and NBSP. *)
Definition isspace (c : ascii) : bool :=
  between 9 13 c || between 28 32 c || (code c =? 133)%N || (code c =? 160)%N.

(** [str.lower] on one code point below U+0100: A-Z and the Latin-1 capitals
    U+00C0..U+00DE (without the multiplication sign U+00D7) move up by 32. *)
Definition lower_char (c : ascii) : ascii :=
  if between 65 90 c || (between 192 222 c && negb (code c =? 215)%N)
  then ascii_of_N (code c + 32)
  else c.

Fixpoint lower (s : string) : string :=
  match s with
  | EmptyString => EmptyString
  | String c s' => String (lower_char c) (lower s')
  end.

Fixpoint lstrip (s : string) : string :=
  match s with
  | EmptyString => EmptyString
  | String c s' => if isspace c then lstrip s' else s
  end.

Fixpoint rstrip (s : string) : string :=
  match s with
  | EmptyString => EmptyString
  | String c s' =>
      match rstrip s' with
      | EmptyString => if isspace c then EmptyString else String c EmptyString
      | r => String c r
      end
  end.

(** [s.strip()] *)
Definition strip (s : string) : string := rstrip (lstrip s).

(** [len(s)] *)
Definition len (s : string) : Z := Z.of_nat (String.length s).

(** ["a" * n] *)
Fixpoint repeat_char (c : ascii) (n : nat) : string :=
  match n with
  | O => EmptyString
  | S n' => String c (repeat_char c n')
  end.

(** [needle in s] *)
Fixpoint contains (needle s : string) : bool :=
  String.prefix needle s ||
  match s with
  | EmptyString => false
  | String _ s' => contains needle s'
  end.

Definition LF : ascii := ascii_of_N 10.

End PyStr.

(** ** Regular expressions, as the [re] module runs them *)

Module Re.
Import PyStr.

(** An item of a bracket expression: [a-z] or a single character. *)
Inductive class_item : Type :=
| Range (lo hi : ascii)
| Chr (c : ascii).

Inductive regex : Type :=
| Void
| Eps
| Class (negated : bool) (items : list class_item)
| Cat (r1 r2 : regex)
| Alt (r1 r2 : regex)
| Star (r : regex).

(** [c], [r?], [r+] and [r{0,n}] *)
Definition Lit (c : ascii) : regex := Class false [Chr c].
Definition Opt (r : regex) : regex := Alt Eps r.
Definition Plus (r : regex) : regex := Cat r (Star r).
Fixpoint Upto (n : nat) (r : regex) : regex :=
  match n with
  | O => Eps
  | S n' => Alt Eps (Cat r (Upto n' r))
  end.

Definition item_mem (c : ascii) (i : class_item) : bool :=
  match i with
  | Range lo hi => between (code lo) (code hi) c
  | Chr d => Ascii.eqb c d
  end.

Definition class_mem (negated : bool) (items : list class_item) (c : ascii) : bool :=
  xorb negated (existsb (item_mem c) items).

Fixpoint nullable (r : regex) : bool :=
  match r with
  | Void => false
  | Eps => true
  | Class _ _ => false
  | Cat r1 r2 => nullable r1 && nullable r2
  | Alt r1 r2 => nullable r1 || nullable r2
  | Star _ => true
  end.

Definition cat_ (r1 r2 : regex) : regex :=
  match r1, r2 with
  | Void, _ => Void
  | _, Void => Void
  | Eps, _ => r2
  | _, _ => Cat r1 r2
  end.

Definition alt_ (r1 r2 : regex) : regex :=
  match r1, r2 with
  | Void, _ => r2
  | _, Void => r1
  | _, _ => Alt r1 r2
  end.

(** The derivative of [r] by the character [c]. *)
Fixpoint deriv (c : ascii) (r : regex) : regex :=
  match r with
  | Void => Void
  | Eps => Void
  | Class neg items => if class_mem neg items c then Eps else Void
  | Cat r1 r2 =>
      alt_ (cat_ (deriv c r1) r2) (if nullable r1 then deriv c r2 else Void)
  | Alt r1 r2 => alt_ (deriv c r1) (deriv c r2)
  | Star r1 => cat_ (deriv c r1) (Star r1)
  end.

(** A pattern: an optional [^] in front, a body, an optional [$] behind. *)
Record pattern : Type := Pattern {
  anchor_start : bool;
  body : regex;
  anchor_end : bool
}.

(** Where [$] matches: at the end of the string and just before a newline
    that ends the string. *)
Definition at_dollar (rest : string) : bool :=
  match rest with
  | EmptyString => true
  | String c EmptyString => Ascii.eqb c LF
  | _ => false
  end.

Definition end_ok (anchored : bool) (rest : string) : bool :=
  if anchored then at_dollar rest else true.

(** Does the pattern body match some prefix of [s] (whose end satisfies the
    end anchor)? *)
Fixpoint match_here (r : regex) (anchored : bool) (s : string) : bool :=
  (nullable r && end_ok anchored s) ||
  match s with
  | EmptyString => false
  | String c s' => match_here (deriv c r) anchored s'
  end.

(** [re.match(p, s)] is not None *)
Definition re_match (p : pattern) (s : string) : bool :=
  match_here (body p) (anchor_end p) s.

Fixpoint search_from (p : pattern) (s : string) : bool :=
  match_here (body p) (anchor_end p) s ||
  match s with
  | EmptyString => false
  | String _ s' => search_from p s'
  end.

(** [re.search(p, s)] is not None *)
Definition re_search (p : pattern) (s : string) : bool :=
  if anchor_start p then re_match p s else search_from p s.

(** The language of a regular expression: the strings its body matches in
    full. *)
Inductive Lang : regex -> string -> Prop :=
| LangEps : Lang Eps EmptyString
| LangClass neg items c :
    class_mem neg items c = true -> Lang (Class neg items) (String c EmptyString)
| LangCat r1 r2 s1 s2 :
    Lang r1 s1 -> Lang r2 s2 -> Lang (Cat r1 r2) (s1 ++ s2)
| LangAltL r1 r2 s : Lang r1 s -> Lang (Alt r1 r2) s
| LangAltR r1 r2 s : Lang r2 s -> Lang (Alt r1 r2) s
| LangStarNil r : Lang (Star r) EmptyString
| LangStarApp r s1 s2 :
    Lang r s1 -> Lang (Star r) s2 -> Lang (Star r) (s1 ++ s2).

(** Every character class of [r] is included in [p]. *)
Fixpoint within (p : ascii -> bool) (r : regex) : Prop :=
  match r with
  | Void | Eps => True
  | Class neg items => forall c, class_mem neg items c = true -> p c = true
  | Cat r1 r2 | Alt r1 r2 => within p r1 /\ within p r2
  | Star r1 => within p r1
  end.

End Re.

(** ** Configuration *)

(** A rate limit such as ['1 per 5 minutes']: an amount and a period in
    seconds. *)
Record rate_limit : Type := RateLimit {
  amount : nat;
  period : Z
}.

(** The class [Config]; a variable that is not set in the environment is
    [None]. *)
Record Config : Type := mkConfig {
  AWX_API_ENDPOINT : option string;
  AWX_USERNAME : option string;
  AWX_PASSWORD : option string;
  AWX_TOKEN : option string;
  AWX_TEMPLATE_NAME : option string;
  AWX_WORKFLOW_NAME : option string;
  GLOBAL_RATE_LIMIT : rate_limit;
  PER_IP_RATE_LIMIT : rate_limit;
  MAX_HOSTNAME_LENGTH : Z;
  MIN_HOSTNAME_LENGTH : Z
}.

(** The truth value of [os.getenv(...)]: set and not empty. *)
Definition configured (v : option string) : bool :=
  match v with
  | Some (String _ _) => true
  | _ => false
  end.

(** The configuration of the test suite ([tests/test_app.py]) with every
    default of [Config]. *)
Definition test_config : Config := {|
  AWX_API_ENDPOINT := Some "https://test.example.com";
  AWX_USERNAME := Some "test";
  AWX_PASSWORD := Some "test";
  AWX_TOKEN := None;
  AWX_TEMPLATE_NAME := Some "test-template";
  AWX_WORKFLOW_NAME := None;
  GLOBAL_RATE_LIMIT := RateLimit 100 3600;
  PER_IP_RATE_LIMIT := RateLimit 1 300;
  MAX_HOSTNAME_LENGTH := 253;
  MIN_HOSTNAME_LENGTH := 1
|}.

(** [Config.validate()]: [None] when it returns, and the message of the
    [ValueError] when it raises. *)
Definition validate (cfg : Config) : option string :=
  if negb (configured (AWX_API_ENDPOINT cfg)) then
    Some "AWX_API_ENDPOINT is required"
  else if negb (configured (AWX_USERNAME cfg) && configured (AWX_PASSWORD cfg))
          && negb (configured (AWX_TOKEN cfg)) then
    Some "Either AWX_USERNAME/AWX_PASSWORD or AWX_TOKEN is required"
  else if negb (configured (AWX_TEMPLATE_NAME cfg))
          && negb (configured (AWX_WORKFLOW_NAME cfg)) then
    Some "Either AWX_TEMPLATE_NAME or AWX_WORKFLOW_NAME is required"
  else if configured (AWX_TEMPLATE_NAME cfg)
          && configured (AWX_WORKFLOW_NAME cfg) then
    Some "Cannot specify both AWX_TEMPLATE_NAME and AWX_WORKFLOW_NAME"
  else None.


(** ** The hostname sanitizer *)

Module Sanitizer.
Import PyStr Re.

Definition alnum : list class_item :=
  [Range "a" "z"; Range "A" "Z"; Range "0" "9"].

(** [[a-zA-Z0-9]([a-zA-Z0-9\-]{0,61}[a-zA-Z0-9])?] *)
Definition label_re : regex :=
  Cat (Class false alnum)
      (Opt (Cat (Upto 61 (Class false (alnum ++ [Chr "-"])))
                (Class false alnum))).

(** [\.[a-zA-Z0-9]([a-zA-Z0-9\-]{0,61}[a-zA-Z0-9])?] *)
Definition dot_label : regex := Cat (Lit ".") label_re.

(** [^[a-zA-Z0-9]([a-zA-Z0-9\-]{0,61}[a-zA-Z0-9])?(\.[a-zA-Z0-9]([a-zA-Z0-9\-]{0,61}[a-zA-Z0-9])?)*$] *)
Definition hostname_pattern : pattern :=
  Pattern true (Cat label_re (Star dot_label)) true.

(** The characters of [[a-zA-Z0-9\.-]]. *)
Definition allowed : list class_item := alnum ++ [Chr "."; Chr "-"].

Definition suspicious_patterns : list pattern :=
  [ Pattern false (Cat (Lit ".") (Plus (Lit "."))) false;  (* \.\.+ *)
    Pattern true (Lit "-") false;                          (* ^- *)
    Pattern false (Lit "-") true;                          (* -$ *)
    Pattern false (Class true allowed) false               (* [^a-zA-Z0-9\.-] *)
  ].

(** [sanitize_hostname(hostname)]; the argument is a [str] or [None]. *)
Definition sanitize_hostname (cfg : Config) (hostname : option string)
  : option string :=
  match hostname with
  | None => None
  | Some EmptyString => None
  | Some raw =>
      let hostname := lower (strip raw) in
      if (len hostname <? MIN_HOSTNAME_LENGTH cfg)%Z
         || (len hostname >? MAX_HOSTNAME_LENGTH cfg)%Z
      then None
      else if negb (re_match hostname_pattern hostname) then None
      else if existsb (fun p => re_search p hostname) suspicious_patterns
      then None
      else Some hostname
  end.

End Sanitizer.

(** ** RFC 1123 host names, in the words of the specification

    One or more dot-separated labels; each label is alphanumeric, may contain
    internal hyphens, must start and end with an alphanumeric character and
    has at most 63 characters. *)

Module Rfc1123.
Import PyStr.

Definition is_alnum (c : ascii) : bool :=
  between 97 122 c || between 65 90 c || between 48 57 c.

Definition is_label_char (c : ascii) : bool :=
  is_alnum c || Ascii.eqb c "-".

(** The characters a sanitized host name is made of: [[a-z0-9.-]]. *)
Definition is_hostname_char (c : ascii) : bool :=
  between 97 122 c || between 48 57 c || Ascii.eqb c "." || Ascii.eqb c "-".

Fixpoint all_chars (p : ascii -> bool) (s : string) : bool :=
  match s with
  | EmptyString => true
  | String c s' => p c && all_chars p s'
  end.

Fixpoint has_char (p : ascii -> bool) (s : string) : bool :=
  match s with
  | EmptyString => false
  | String c s' => p c || has_char p s'
  end.

Definition first_char (s : string) : option ascii :=
  match s with
  | EmptyString => None
  | String c _ => Some c
  end.

Fixpoint last_char (s : string) : option ascii :=
  match s with
  | EmptyString => None
  | String c EmptyString => Some c
  | String _ s' => last_char s'
  end.

Definition holds (p : ascii -> bool) (o : option ascii) : bool :=
  match o with
  | Some c => p c
  | None => false
  end.

Definition valid_label (l : string) : bool :=
  (1 <=? String.length l)%nat && (String.length l <=? 63)%nat
  && all_chars is_label_char l
  && holds is_alnum (first_char l) && holds is_alnum (last_char l).

(** [s.split(".")] *)
Fixpoint split_dots (s : string) : list string :=
  match s with
  | EmptyString => [EmptyString]
  | String c s' =>
      if Ascii.eqb c "." then EmptyString :: split_dots s'
      else match split_dots s' with
           | l :: ls => String c l :: ls
           | [] => [String c EmptyString]
           end
  end.

Definition rfc1123_hostname (h : string) : bool :=
  forallb valid_label (split_dots h).

End Rfc1123.

(** ** Python values and exceptions *)

Module Py.
Import PyStr.

(** A value decoded from JSON, also used for the dictionaries the source
    builds; [JNull] is [None]. *)
#[local] Unset Elimination Schemes.
Inductive json : Type :=
| JNull
| JBool (b : bool)
| JNum (z : Z)
| JStr (s : string)
| JList (l : list json)
| JDict (d : list (string * json)).
#[local] Set Elimination Schemes.

(** The exception classes the source tells apart, and those its operations
    raise.  [Timeout] is [requests.exceptions.Timeout] with its subclasses;
    [HTTPError], [ConnectionError] and [RequestException] are the other
    classes below [requests.exceptions.RequestException]. *)
Inductive exn_class : Type :=
| Timeout
| HTTPError
| ConnectionError
| RequestException
| KeyError
| TypeError
| AttributeError
| IndexError
| BadRequest
| RuntimeError.

(** An exception: its class and [str(e)]. *)
Record exn : Type := Exn {
  exn_class_of : exn_class;
  exn_msg : string
}.

(** [isinstance(e, requests.exceptions.Timeout)] *)
Definition is_timeout (e : exn) : bool :=
  match exn_class_of e with
  | Timeout => true
  | _ => false
  end.

(** [isinstance(e, requests.exceptions.RequestException)] *)
Definition is_request_exception (e : exn) : bool :=
  match exn_class_of e with
  | Timeout | HTTPError | ConnectionError | RequestException => true
  | _ => false
  end.

Inductive outcome (A : Type) : Type :=
| Returned (a : A)
| Raised (e : exn).
Arguments Returned {A} a.
Arguments Raised {A} e.

(** [type(v).__name__] *)
Definition type_name (v : json) : string :=
  match v with
  | JNull => "NoneType"
  | JBool _ => "bool"
  | JNum _ => "int"
  | JStr _ => "str"
  | JList _ => "list"
  | JDict _ => "dict"
  end.

(** [bool(v)] *)
Definition truthy (v : json) : bool :=
  match v with
  | JNull => false
  | JBool b => b
  | JNum z => negb (z =? 0)%Z
  | JStr s => negb (s =? "")%string
  | JList l => match l with [] => false | _ => true end
  | JDict d => match d with [] => false | _ => true end
  end.

Fixpoint lookup (key : string) (d : list (string * json)) : option json :=
  match d with
  | [] => None
  | (k, v) :: d' => if (k =? key)%string then Some v else lookup key d'
  end.

Definition no_attribute (v : json) (name : string) : exn :=
  Exn AttributeError
      ("'" ++ type_name v ++ "' object has no attribute '" ++ name ++ "'").

Definition not_subscriptable (v : json) : exn :=
  Exn TypeError ("'" ++ type_name v ++ "' object is not subscriptable").

(** [v.get(key, default)] *)
Definition py_get (v : json) (key : string) (default : json) : outcome json :=
  match v with
  | JDict d =>
      match lookup key d with
      | Some x => Returned x
      | None => Returned default
      end
  | _ => Raised (no_attribute v "get")
  end.

(** [v[key]] for a string key without quote or backslash, whose [repr] is
    the key between single quotes. *)
Definition py_getitem (v : json) (key : string) : outcome json :=
  match v with
  | JDict d =>
      match lookup key d with
      | Some x => Returned x
      | None => Raised (Exn KeyError ("'" ++ key ++ "'"))
      end
  | JList _ =>
      Raised (Exn TypeError "list indices must be integers or slices, not str")
  | JStr _ => Raised (Exn TypeError "string indices must be integers, not 'str'")
  | _ => Raised (not_subscriptable v)
  end.

(** [v[0]]; the keys of a decoded JSON object are strings, so [0] is never
    one of them. *)
Definition py_getitem_0 (v : json) : outcome json :=
  match v with
  | JList (x :: _) => Returned x
  | JList [] => Raised (Exn IndexError "list index out of range")
  | JStr (String c _) => Returned (JStr (String c EmptyString))
  | JStr EmptyString => Raised (Exn IndexError "string index out of range")
  | JDict _ => Raised (Exn KeyError "0")
  | _ => Raised (not_subscriptable v)
  end.

(** [f"{v}"] for a configuration value *)
Definition fmt (v : option string) : string :=
  match v with
  | Some s => s
  | None => "None"
  end.

(** A piece of an f-string: literal text, or a replacement field holding a
    JSON value (rendered by [str]). *)
Inductive fpart : Type :=
| Text (s : string)
| Field (v : json).

(** [s.encode()]: UTF-8, two bytes for U+0080..U+00FF. *)
Fixpoint utf8 (s : string) : string :=
  match s with
  | EmptyString => EmptyString
  | String c s' =>
      if (code c <? 128)%N then String c (utf8 s')
      else String (ascii_of_N (192 + code c / 64))
                  (String (ascii_of_N (128 + code c mod 64)) (utf8 s'))
  end.

Definition b64_alphabet : string :=
  "ABCDEFGHIJKLMNOPQRSTUVWXYZabcdefghijklmnopqrstuvwxyz0123456789+/".

Definition b64_digit (n : N) : ascii :=
  match String.get (N.to_nat (n mod 64)) b64_alphabet with
  | Some c => c
  | None => "="%char
  end.

(** [base64.b64encode(s).decode()] *)
Fixpoint b64encode (s : string) : string :=
  match s with
  | EmptyString => EmptyString
  | String a EmptyString =>
      let n := (code a * 65536)%N in
      String (b64_digit (n / 262144)) (String (b64_digit (n / 4096)) "==")
  | String a (String b EmptyString) =>
      let n := (code a * 65536 + code b * 256)%N in
      String (b64_digit (n / 262144))
        (String (b64_digit (n / 4096)) (String (b64_digit (n / 64)) "="))
  | String a (String b (String c rest)) =>
      let n := (code a * 65536 + code b * 256 + code c)%N in
      String (b64_digit (n / 262144))
        (String (b64_digit (n / 4096))
           (String (b64_digit (n / 64))
              (String (b64_digit n) (b64encode rest))))
  end.

(** [str(n)] for an integer *)
Definition decimal (z : Z) : string := NilZero.string_of_int (Z.to_int z).

End Py.

(** ** The [requests] library, as far as the source uses it *)

Module Requests.
Import Py.

Inductive method : Type := GET | POST.

(** One outbound call: [requests.get(url, headers=, timeout=)] or
    [requests.post(url, json=, headers=, timeout=)]. *)
Record Request : Type := mkRequest {
  req_method : method;
  req_url : list fpart;
  req_json : option json;
  req_headers : list (string * string);
  req_timeout : Z
}.

(** What the client sees of a response: the status line, the final URL and
    what [response.json()] does. *)
Record Response : Type := mkResponse {
  status_code : Z;
  reason : string;
  url : string;
  json_body : outcome json
}.

(** [response.raise_for_status()]: [HTTPError] for a 4xx or a 5xx status,
    nothing otherwise. *)
Definition raise_for_status (r : Response) : outcome unit :=
  if (400 <=? status_code r)%Z && (status_code r <? 500)%Z then
    Raised (Exn HTTPError (decimal (status_code r) ++ " Client Error: "
                           ++ reason r ++ " for url: " ++ url r))
  else if (500 <=? status_code r)%Z && (status_code r <? 600)%Z then
    Raised (Exn HTTPError (decimal (status_code r) ++ " Server Error: "
                           ++ reason r ++ " for url: " ++ url r))
  else Returned tt.

(** The controller and the network between: the outcome of every call. *)
Definition network : Type := Request -> outcome Response.

(** A computation that makes outbound calls: it extends the list of calls
    made so far, and returns or raises. *)
Definition IO (A : Type) : Type := list Request -> outcome A * list Request.

Definition ret {A : Type} (a : A) : IO A := fun calls => (Returned a, calls).

Definition bind {A B : Type} (m : IO A) (k : A -> IO B) : IO B :=
  fun calls =>
    match m calls with
    | (Returned a, calls') => k a calls'
    | (Raised e, calls') => (Raised e, calls')
    end.

(** A step that makes no call. *)
Definition lift {A : Type} (o : outcome A) : IO A := fun calls => (o, calls).

(** [try: m except Exception as e: handler(e)] *)
Definition try_except {A : Type} (m : IO A) (handler : exn -> IO A) : IO A :=
  fun calls =>
    match m calls with
    | (Returned a, calls') => (Returned a, calls')
    | (Raised e, calls') => handler e calls'
    end.

Definition send (net : network) (rq : Request) : IO Response :=
  fun calls => (net rq, (calls ++ [rq])%list).

End Requests.

Declare Scope io_scope.
Delimit Scope io_scope with io.
Notation "x <- m ;; k" := (Requests.bind m (fun x => k))
  (at level 61, m at next level, right associativity) : io_scope.

(** ** The controller client *)

Module Client.
Import PyStr Py Requests.
Local Open Scope io_scope.

(** The two launch modes; the source has one branch for each, the same up to
    the four strings below. *)
Inductive kind : Type := Template | Workflow.

Definition collection (k : kind) : string :=
  match k with
  | Template => "job_templates"
  | Workflow => "workflow_job_templates"
  end.

Definition configured_name (cfg : Config) (k : kind) : option string :=
  match k with
  | Template => AWX_TEMPLATE_NAME cfg
  | Workflow => AWX_WORKFLOW_NAME cfg
  end.

Definition not_found (k : kind) : string :=
  match k with
  | Template => "Template not found"
  | Workflow => "Workflow not found"
  end.

Definition job_type (k : kind) : string :=
  match k with
  | Template => "template"
  | Workflow => "workflow"
  end.

(** [if Config.AWX_TEMPLATE_NAME: ... elif Config.AWX_WORKFLOW_NAME: ...] *)
Definition configured_kind (cfg : Config) : option kind :=
  if configured (AWX_TEMPLATE_NAME cfg) then Some Template
  else if configured (AWX_WORKFLOW_NAME cfg) then Some Workflow
  else None.

(** [get_awx_auth_headers()] *)
Definition get_awx_auth_headers (cfg : Config) : list (string * string) :=
  if configured (AWX_TOKEN cfg) then
    [("Authorization", "Bearer " ++ fmt (AWX_TOKEN cfg))]
  else
    let credentials :=
      b64encode (utf8 (fmt (AWX_USERNAME cfg) ++ ":" ++ fmt (AWX_PASSWORD cfg))) in
    [("Authorization", "Basic " ++ credentials)].

(** [headers = {'Content-Type': 'application/json', **get_awx_auth_headers()}] *)
Definition headers (cfg : Config) : list (string * string) :=
  ("Content-Type", "application/json") :: get_awx_auth_headers cfg.

(** [url = f"{Config.AWX_API_ENDPOINT}/api/v2/job_templates/"] *)
Definition collection_url (cfg : Config) (k : kind) : string :=
  fmt (AWX_API_ENDPOINT cfg) ++ "/api/v2/" ++ collection k ++ "/".

(** [requests.get(f"{url}?name={Config.AWX_TEMPLATE_NAME}", headers=headers, timeout=10)] *)
Definition lookup_request (cfg : Config) (k : kind) : Request :=
  mkRequest GET
    [Text (collection_url cfg k ++ "?name=" ++ fmt (configured_name cfg k))]
    None (headers cfg) 10.

(** [requests.post(f"{url}{template_id}/launch/", json=payload, headers=headers, timeout=10)] *)
Definition launch_request (cfg : Config) (k : kind) (template_id : json)
           (hostname : string) : Request :=
  mkRequest POST
    [Text (collection_url cfg k); Field template_id; Text "/launch/"]
    (Some (JDict [("limit", JStr hostname);
                  ("extra_vars", JDict [("target_hostname", JStr hostname)])]))
    (headers cfg) 10.

Definition failure (error : string) : json :=
  JDict [("success", JBool false); ("error", JStr error)].

Definition success (job_id : json) (k : kind) (hostname : string) : json :=
  JDict [("success", JBool true); ("job_id", job_id);
         ("job_type", JStr (job_type k)); ("hostname", JStr hostname)].

(** One branch of the [try] block of [trigger_awx_job]. *)
Definition launch (cfg : Config) (net : network) (k : kind) (hostname : string)
  : IO json :=
  response <- send net (lookup_request cfg k) ;;
  _ <- lift (raise_for_status response) ;;
  found <- lift (json_body response) ;;
  templates <- lift (py_get found "results" (JList [])) ;;
  if negb (truthy templates) then ret (failure (not_found k))
  else
    first <- lift (py_getitem_0 templates) ;;
    template_id <- lift (py_getitem first "id") ;;
    response <- send net (launch_request cfg k template_id hostname) ;;
    _ <- lift (raise_for_status response) ;;
    job_data <- lift (json_body response) ;;
    job_id <- lift (py_get job_data "id" JNull) ;;
    ret (success job_id k hostname).

(** The [try] block of [trigger_awx_job]; with neither name configured it
    falls through and the function returns [None]. *)
Definition trigger_awx_job_body (cfg : Config) (net : network)
           (hostname : string) : IO json :=
  match configured_kind cfg with
  | Some k => launch cfg net k hostname
  | None => ret JNull
  end.

(** The three [except] clauses of [trigger_awx_job], in their order. *)
Definition on_exception (e : exn) : IO json :=
  if is_timeout e then ret (failure "AWX API timeout")
  else if is_request_exception e then
    ret (failure ("AWX API error: " ++ exn_msg e))
  else ret (failure ("Unexpected error: " ++ exn_msg e)).

(** [trigger_awx_job(hostname)] *)
Definition trigger_awx_job (cfg : Config) (net : network) (hostname : string)
  : IO json :=
  try_except (trigger_awx_job_body cfg net hostname) on_exception.

(** The call [rq] fails with [e]: it raises [e], or it returns a response
    for which [raise_for_status] raises [e]. *)
Definition fails (net : network) (rq : Request) (e : exn) : Prop :=
  net rq = Raised e
  \/ exists response,
       net rq = Returned response /\ raise_for_status response = Raised e.

(** The lookup succeeds and the first of its results has the identifier
    [template_id]. *)
Definition resolves (cfg : Config) (net : network) (k : kind)
           (template_id : json) : Prop :=
  exists response found templates first,
    net (lookup_request cfg k) = Returned response
    /\ raise_for_status response = Returned tt
    /\ json_body response = Returned found
    /\ py_get found "results" (JList []) = Returned templates
    /\ truthy templates = true
    /\ py_getitem_0 templates = Returned first
    /\ py_getitem first "id" = Returned template_id.

End Client.

(** ** The [/provision] handler *)

Module Handler.
Import PyStr Py Requests Client Sanitizer.
Local Open Scope io_scope.

(** The body of a request: JSON ([request.is_json], with what
    [request.get_json()] does) or a form. *)
Inductive request_body : Type :=
| JsonBody (parsed : outcome json)
| FormBody (fields : list (string * string)).

Record HttpRequest : Type := mkHttpRequest {
  remote_addr : string;
  body_of : request_body
}.

(** A response: the status and the document given to [jsonify]. *)
Definition HttpResponse : Type := (Z * json)%type.

Fixpoint form_get (key : string) (fields : list (string * string)) : json :=
  match fields with
  | [] => JNull
  | (k, v) :: fields' => if (k =? key)%string then JStr v else form_get key fields'
  end.

(** The first statement of the handler: the hostname of the request. *)
Definition extract_hostname (req : HttpRequest) : outcome json :=
  match body_of req with
  | JsonBody parsed =>
      match parsed with
      | Returned data =>
          if truthy data then py_get data "hostname" JNull else Returned JNull
      | Raised e => Raised e
      end
  | FormBody fields => Returned (form_get "hostname" fields)
  end.

(** [sanitize_hostname(hostname)] on whatever the request holds: a value
    that is true and not a string has no [strip]. *)
Definition sanitize_hostname_value (cfg : Config) (v : json)
  : outcome (option string) :=
  if negb (truthy v) then Returned None
  else match v with
       | JStr s => Returned (sanitize_hostname cfg (Some s))
       | _ => Raised (no_attribute v "strip")
       end.

Definition internal_server_error : HttpResponse :=
  (500%Z, JDict [("error", JStr "Internal server error")]).

(** The last statement of the handler: the response for the result of
    [trigger_awx_job]. *)
Definition respond (sanitized_hostname : string) (result : json)
  : IO HttpResponse :=
  succeeded <- lift (py_getitem result "success") ;;
  if truthy succeeded then
    job_id <- lift (py_get result "job_id" JNull) ;;
    job_type <- lift (py_get result "job_type" JNull) ;;
    ret (200%Z,
         JDict [("success", JBool true);
                ("hostname", JStr sanitized_hostname);
                ("job_id", job_id);
                ("job_type", job_type);
                ("message", JStr ("Job triggered successfully for "
                                  ++ sanitized_hostname))])
  else
    error <- lift (py_get result "error" JNull) ;;
    ret (500%Z,
         JDict [("success", JBool false);
                ("hostname", JStr sanitized_hostname);
                ("error", error)]).

(** The [try] block of [provision]. *)
Definition provision_body (cfg : Config) (net : network) (req : HttpRequest)
  : IO HttpResponse :=
  hostname <- lift (extract_hostname req) ;;
  if negb (truthy hostname) then
    ret (400%Z, JDict [("error", JStr "hostname parameter is required")])
  else
    sanitized <- lift (sanitize_hostname_value cfg hostname) ;;
    match sanitized with
    | None | Some EmptyString =>
        ret (400%Z, JDict [("error", JStr "Invalid hostname format")])
    | Some sanitized_hostname =>
        result <- trigger_awx_job cfg net sanitized_hostname ;;
        respond sanitized_hostname result
    end.

(** [provision()]: the handler body under its [except Exception]; it gives
    the response and the calls made. *)
Definition provision (cfg : Config) (net : network) (req : HttpRequest)
           (calls : list Request) : HttpResponse * list Request :=
  match provision_body cfg net req calls with
  | (Returned response, calls') => (response, calls')
  | (Raised _, calls') => (internal_server_error, calls')
  end.

(** [ratelimit_handler(e)], with [getattr(e, 'retry_after', None)]. *)
Definition ratelimit_handler (retry_after : json) : HttpResponse :=
  (429%Z,
   JDict [("error", JStr "Rate limit exceeded");
          ("message", JStr "Too many requests. Please try again later.");
          ("retry_after", retry_after)]).

End Handler.

(** ** The rate limiter

    The decorators of [provision] come from [flask_limiter], which is not
    part of the sources; the limiter below follows section 4.2 of the
    specification. *)

Module Limiter.
Import Py Requests Handler.

(** Modelled from the spec: the keys of the rate limit counters, one for
    each client address and one shared by all requests. *)
Inductive key : Type :=
| Client (addr : string)
| Global.

(** Modelled from the spec: equality of counter keys. *)
Definition key_eqb (a b : key) : bool :=
  match a, b with
  | Client x, Client y => (x =? y)%string
  | Global, Global => true
  | _, _ => false
  end.

(** Modelled from the spec: a fixed-window counter with its time to live,
    the admits of the window and the time at which it ends. *)
Record counter : Type := Counter {
  count : nat;
  expires : Z
}.

(** Modelled from the spec: the counter store, shared or in-process. *)
Definition store : Type := key -> option counter.

(** Modelled from the spec: the store at startup. *)
Definition empty_store : store := fun _ => None.

(** Modelled from the spec: the units of a key's quota consumed in the
    window that is open at time [now]. *)
Definition used (st : store) (k : key) (now : Z) : nat :=
  match st k with
  | Some c => if (now <? expires c)%Z then count c else 0
  | None => 0
  end.

(** Modelled from the spec: a quota has remaining capacity. *)
Definition has_capacity (lim : rate_limit) (st : store) (k : key) (now : Z)
  : bool :=
  (used st k now <? amount lim)%nat.

(** Modelled from the spec: the counter after one more unit; the first unit
    of a window opens it for the period of the limit. *)
Definition hit (lim : rate_limit) (c : option counter) (now : Z) : counter :=
  match c with
  | Some c =>
      if (now <? expires c)%Z then Counter (S (count c)) (expires c)
      else Counter 1 (now + period lim)
  | None => Counter 1 (now + period lim)
  end.

(** Modelled from the spec: consuming one unit of the quota of a key. *)
Definition consume (lim : rate_limit) (st : store) (k : key) (now : Z) : store :=
  fun k' => if key_eqb k' k then Some (hit lim (st k) now) else st k'.

(** Modelled from the spec: a request is admitted only if both quotas have
    remaining capacity, and admitting consumes one unit from both. *)
Definition grant (cfg : Config) (st : store) (now : Z) (addr : string)
  : option store :=
  if has_capacity (PER_IP_RATE_LIMIT cfg) st (Client addr) now
     && has_capacity (GLOBAL_RATE_LIMIT cfg) st Global now
  then Some (consume (GLOBAL_RATE_LIMIT cfg)
               (consume (PER_IP_RATE_LIMIT cfg) st (Client addr) now)
               Global now)
  else None.

(** [POST /provision]: the handler under its two [limiter.limit]
    decorators.  The limits are checked first; a rejected request gets the
    answer of [ratelimit_handler] and the handler does not run. *)
Definition provision_endpoint (cfg : Config) (net : network) (st : store)
           (now : Z) (req : HttpRequest) (calls : list Request)
  : HttpResponse * store * list Request :=
  match grant cfg st now (remote_addr req) with
  | Some st' =>
      let (response, calls') := provision cfg net req calls in
      (response, st', calls')
  | None => (ratelimit_handler JNull, st, calls)
  end.





(** Modelled from the spec: what the limiter leaves in the store when it
    rejects a request.  The spec fixes what an admitted request consumes and
    is silent on a rejected one, and limiters differ there: the rejection is
    a parameter of the sequences below. *)
Definition rejection : Type := Config -> store -> Z -> string -> store.

(** Modelled from the spec: a rejected request consumes nothing. *)
Definition untouched : rejection := fun _ st _ _ => st.

(** Modelled from the spec: a limiter that tests the two quotas one after the
    other, counts one unit against each quota it tests and stops at the first
    exhausted one; the store it leaves when the request is rejected. *)
Definition counted (global_first : bool) : rejection :=
  fun cfg st now addr =>
    if global_first then
      let st1 := consume (GLOBAL_RATE_LIMIT cfg) st Global now in
      if has_capacity (GLOBAL_RATE_LIMIT cfg) st Global now
      then consume (PER_IP_RATE_LIMIT cfg) st1 (Client addr) now
      else st1
    else
      let st1 := consume (PER_IP_RATE_LIMIT cfg) st (Client addr) now in
      if has_capacity (PER_IP_RATE_LIMIT cfg) st (Client addr) now
      then consume (GLOBAL_RATE_LIMIT cfg) st1 Global now
      else st1.


(** Modelled from the spec: the store after a sequence of arrivals (time and
    client address). *)
Fixpoint after (r : rejection) (cfg : Config) (st : store)
         (arrivals : list (Z * string)) : store :=
  match arrivals with
  | [] => st
  | (now, addr) :: rest =>
      match grant cfg st now addr with
      | Some st' => after r cfg st' rest
      | None => after r cfg (r cfg st now addr) rest
      end
  end.

(** Modelled from the spec: the decisions of the limiter on a sequence of
    arrivals, [true] for an admitted request. *)
Fixpoint grants (r : rejection) (cfg : Config) (st : store)
         (arrivals : list (Z * string)) : list bool :=
  match arrivals with
  | [] => []
  | (now, addr) :: rest =>
      match grant cfg st now addr with
      | Some st' => true :: grants r cfg st' rest
      | None => false :: grants r cfg (r cfg st now addr) rest
      end
  end.


End Limiter.

(** ** Requests, controllers and configurations used as examples *)

Module Fixtures.
Import PyStr Py Requests Client Handler.

(** [client.post('/provision', json=data)] of the test suite *)
Definition post_json (data : json) : HttpRequest :=
  mkHttpRequest "127.0.0.1" (JsonBody (Returned data)).

Definition provision_request (hostname : string) : HttpRequest :=
  post_json (JDict [("hostname", JStr hostname)]).

Definition ok (status : Z) (document : json) : Response :=
  mkResponse status "OK" "https://test.example.com/" (Returned document).

Definition unreachable : outcome Response :=
  Raised (Exn ConnectionError "Connection refused").

(** A controller that knows no template of the configured name. *)
Definition net_no_template : network :=
  fun rq =>
    match req_method rq with
    | GET => Returned (ok 200 (JDict [("count", JNum 0); ("results", JList [])]))
    | POST => unreachable
    end.

(** A controller whose lookup answers with a template that has no [id]. *)
Definition net_missing_id : network :=
  fun rq =>
    match req_method rq with
    | GET => Returned (ok 200 (JDict [("results", JList [JDict []])]))
    | POST => unreachable
    end.

(** A controller that answers the lookup with status 300 and a usable
    document, and launches job 42. *)
Definition net_multiple_choices : network :=
  fun rq =>
    match req_method rq with
    | GET => Returned (ok 300 (JDict [("results", JList [JDict [("id", JNum 7)]])]))
    | POST => Returned (ok 201 (JDict [("id", JNum 42)]))
    end.

(** A controller that does not answer in time. *)
Definition net_timeout : network :=
  fun _ => Raised (Exn Timeout "Read timed out. (read timeout=10)").

(** A controller that answers every call with 503. *)
Definition net_unavailable : network :=
  fun _ => Returned (mkResponse 503 "Service Unavailable"
                       "https://test.example.com/api/v2/job_templates/"
                       (Returned JNull)).

(** The test configuration with a token added to the user name and
    password. *)
Definition token_config : Config := {|
  AWX_API_ENDPOINT := Some "https://test.example.com";
  AWX_USERNAME := Some "test";
  AWX_PASSWORD := Some "test";
  AWX_TOKEN := Some "s3cr3t";
  AWX_TEMPLATE_NAME := Some "test-template";
  AWX_WORKFLOW_NAME := None;
  GLOBAL_RATE_LIMIT := RateLimit 100 3600;
  PER_IP_RATE_LIMIT := RateLimit 1 300;
  MAX_HOSTNAME_LENGTH := 253;
  MIN_HOSTNAME_LENGTH := 1
|}.

(** A development start with neither a template nor a workflow name. *)
Definition nameless_config : Config := {|
  AWX_API_ENDPOINT := Some "https://test.example.com";
  AWX_USERNAME := Some "test";
  AWX_PASSWORD := Some "test";
  AWX_TOKEN := None;
  AWX_TEMPLATE_NAME := None;
  AWX_WORKFLOW_NAME := None;
  GLOBAL_RATE_LIMIT := RateLimit 100 3600;
  PER_IP_RATE_LIMIT := RateLimit 1 300;
  MAX_HOSTNAME_LENGTH := 253;
  MIN_HOSTNAME_LENGTH := 1
|}.

(** A controller that finds template 7 and launches job 42. *)
Definition net_launches : network :=
  fun rq =>
    match req_method rq with
    | GET => Returned (ok 200 (JDict [("count", JNum 1);
                                      ("results", JList [JDict [("id", JNum 7)]])]))
    | POST => Returned (ok 201 (JDict [("id", JNum 42)]))
    end.

(** The test configuration with the length bounds opened up
    ([MIN_HOSTNAME_LENGTH=0], [MAX_HOSTNAME_LENGTH=1000]). *)
Definition lenient_config : Config := {|
  AWX_API_ENDPOINT := Some "https://test.example.com";
  AWX_USERNAME := Some "test";
  AWX_PASSWORD := Some "test";
  AWX_TOKEN := None;
  AWX_TEMPLATE_NAME := Some "test-template";
  AWX_WORKFLOW_NAME := None;
  GLOBAL_RATE_LIMIT := RateLimit 100 3600;
  PER_IP_RATE_LIMIT := RateLimit 1 300;
  MAX_HOSTNAME_LENGTH := 1000;
  MIN_HOSTNAME_LENGTH := 0
|}.

(** The test configuration with two requests a minute for all clients
    together and one a minute for each. *)
Definition shared_minute_config : Config := {|
  AWX_API_ENDPOINT := Some "https://test.example.com";
  AWX_USERNAME := Some "test";
  AWX_PASSWORD := Some "test";
  AWX_TOKEN := None;
  AWX_TEMPLATE_NAME := Some "test-template";
  AWX_WORKFLOW_NAME := None;
  GLOBAL_RATE_LIMIT := RateLimit 2 60;
  PER_IP_RATE_LIMIT := RateLimit 1 60;
  MAX_HOSTNAME_LENGTH := 253;
  MIN_HOSTNAME_LENGTH := 1
|}.

End Fixtures.

(* ====================================================================== *)
(** * Properties *)

Module SanitizerTests.
Import PyStr Re Sanitizer.

Example sanitize_plain :
  sanitize_hostname test_config (Some "test.example.com") = Some "test.example.com".
Proof. vm_compute. reflexivity. Qed.

Example sanitize_upper :
  sanitize_hostname test_config (Some "TEST.EXAMPLE.COM") = Some "test.example.com".
Proof. vm_compute. reflexivity. Qed.

Example sanitize_hyphen :
  sanitize_hostname test_config (Some "host-name") = Some "host-name"
  /\ sanitize_hostname test_config (Some "123test") = Some "123test".
Proof. vm_compute. split; reflexivity. Qed.

Example sanitize_rejects :
  map (sanitize_hostname test_config)
      [Some ""; None; Some (repeat_char "a" 300); Some "host..name";
       Some "-hostname"; Some "hostname-"; Some "host name"; Some "host@name"]
  = [None; None; None; None; None; None; None; None].
Proof. vm_compute. reflexivity. Qed.

End SanitizerTests.

(** ** Strings *)

Module StrFacts.
Import PyStr.

Lemma append_nil_r (s : string) : s ++ "" = s.
Proof. induction s as [|c s IH]; simpl; [reflexivity | now rewrite IH]. Qed.

Lemma append_assoc (a b c : string) : (a ++ b) ++ c = a ++ (b ++ c).
Proof. induction a as [|x a IH]; simpl; [reflexivity | now rewrite IH]. Qed.

Lemma append_eq_nil (a b : string) : a ++ b = "" -> a = "" /\ b = "".
Proof. destruct a; simpl; [auto | discriminate]. Qed.

Lemma length_append (a b : string) :
  String.length (a ++ b) = String.length a + String.length b.
Proof. induction a as [|x a IH]; simpl; [reflexivity | now rewrite IH]. Qed.

(** A property of every code point is checked on the 256 of them. *)
Ltac each_char c :=
  destruct c as [[] [] [] [] [] [] [] []]; vm_compute; try reflexivity;
  try discriminate; try tauto; auto.

Lemma lower_char_idem (c : ascii) : lower_char (lower_char c) = lower_char c.
Proof. each_char c. Qed.

Lemma isspace_lower_char (c : ascii) : isspace (lower_char c) = isspace c.
Proof. each_char c. Qed.

Lemma lower_idem (s : string) : lower (lower s) = lower s.
Proof.
  induction s as [|c s IH]; simpl; [reflexivity|].
  now rewrite lower_char_idem, IH.
Qed.

Lemma length_lower (s : string) : String.length (lower s) = String.length s.
Proof. induction s as [|c s IH]; simpl; congruence. Qed.

Lemma lower_lstrip (s : string) : lstrip (lower s) = lower (lstrip s).
Proof.
  induction s as [|c s IH]; simpl; [reflexivity|].
  rewrite isspace_lower_char. destruct (isspace c); [exact IH | reflexivity].
Qed.

Lemma lower_rstrip (s : string) : rstrip (lower s) = lower (rstrip s).
Proof.
  induction s as [|c s IH]; simpl; [reflexivity|].
  rewrite IH, isspace_lower_char.
  destruct (rstrip s); simpl; [destruct (isspace c)|]; reflexivity.
Qed.

Lemma lower_strip (s : string) : strip (lower s) = lower (strip s).
Proof. unfold strip. now rewrite lower_lstrip, lower_rstrip. Qed.

Lemma rstrip_idem (s : string) : rstrip (rstrip s) = rstrip s.
Proof.
  induction s as [|c s IH]; simpl; [reflexivity|].
  destruct (rstrip s) as [|d r] eqn:E.
  - destruct (isspace c) eqn:Ec; simpl; [reflexivity | now rewrite Ec].
  - change (rstrip (String c (String d r))) with
      (match rstrip (String d r) with
       | EmptyString => if isspace c then EmptyString else String c EmptyString
       | x => String c x
       end).
    now rewrite IH.
Qed.

Lemma lstrip_first (s : string) :
  match lstrip s with
  | EmptyString => True
  | String c _ => isspace c = false
  end.
Proof.
  induction s as [|c s IH]; simpl; [exact I|].
  destruct (isspace c) eqn:E; [exact IH | exact E].
Qed.

Lemma rstrip_first (s : string) :
  match s with
  | EmptyString => True
  | String c _ => isspace c = false
  end ->
  match rstrip s with
  | EmptyString => s = EmptyString
  | String c _ => isspace c = false
  end.
Proof.
  destruct s as [|c s]; simpl; [reflexivity|].
  intros E. rewrite E. destruct (rstrip s); exact E.
Qed.

Lemma lstrip_id (s : string) :
  match s with
  | EmptyString => True
  | String c _ => isspace c = false
  end -> lstrip s = s.
Proof. destruct s as [|c s]; simpl; [reflexivity|]. now intros ->. Qed.

Lemma strip_idem (s : string) : strip (strip s) = strip s.
Proof.
  unfold strip.
  assert (H : lstrip (rstrip (lstrip s)) = rstrip (lstrip s)).
  { apply lstrip_id. pose proof (rstrip_first (lstrip s) (lstrip_first s)) as H.
    destruct (rstrip (lstrip s)); [exact I | exact H]. }
  rewrite H. apply rstrip_idem.
Qed.

(** Trimming and lowercasing a trimmed, lowercased string changes nothing. *)
Lemma normalise_idem (s : string) :
  lower (strip (lower (strip s))) = lower (strip s).
Proof. now rewrite lower_strip, strip_idem, lower_idem. Qed.

End StrFacts.

(** ** The matcher computes membership in the language *)

Module ReFacts.
Import PyStr Re StrFacts.

Lemma Lang_Void (s : string) : ~ Lang Void s.
Proof. intros H. inversion H. Qed.

Lemma Lang_Eps (s : string) : Lang Eps s -> s = "".
Proof. intros H. now inversion H. Qed.

Lemma Lang_Class (neg : bool) (items : list class_item) (s : string) :
  Lang (Class neg items) s ->
  exists c, s = String c "" /\ class_mem neg items c = true.
Proof. intros H. inversion H; subst. eauto. Qed.

Lemma Lang_Cat (r1 r2 : regex) (s : string) :
  Lang (Cat r1 r2) s ->
  exists s1 s2, s = s1 ++ s2 /\ Lang r1 s1 /\ Lang r2 s2.
Proof. intros H. inversion H; subst. eauto. Qed.

Lemma Lang_Alt (r1 r2 : regex) (s : string) :
  Lang (Alt r1 r2) s -> Lang r1 s \/ Lang r2 s.
Proof. intros H. inversion H; subst; auto. Qed.

Lemma nullable_spec (r : regex) : nullable r = true <-> Lang r "".
Proof.
  induction r as [| |neg items|r1 IH1 r2 IH2|r1 IH1 r2 IH2|r IH]; simpl.
  - split; [discriminate | intros H; inversion H].
  - split; [constructor | reflexivity].
  - split; [discriminate | intros H; inversion H].
  - rewrite andb_true_iff, IH1, IH2. split.
    + intros [H1 H2]. change "" with ("" ++ ""). now constructor.
    + intros H. apply Lang_Cat in H as (s1 & s2 & E & H1 & H2).
      symmetry in E. apply append_eq_nil in E as [-> ->]. now split.
  - rewrite orb_true_iff, IH1, IH2. split.
    + intros [H|H]; [now apply LangAltL | now apply LangAltR].
    + apply Lang_Alt.
  - split; [constructor | reflexivity].
Qed.

Lemma cat__spec (r1 r2 : regex) (s : string) :
  Lang (cat_ r1 r2) s <-> Lang (Cat r1 r2) s.
Proof.
  assert (V1 : forall r, ~ Lang (Cat Void r) s).
  { intros r H. apply Lang_Cat in H as (s1 & s2 & _ & H & _).
    now apply Lang_Void in H. }
  assert (V2 : forall r, ~ Lang (Cat r Void) s).
  { intros r H. apply Lang_Cat in H as (s1 & s2 & _ & _ & H).
    now apply Lang_Void in H. }
  assert (E : forall r, Lang r s <-> Lang (Cat Eps r) s).
  { intros r. split.
    - intros H. change s with ("" ++ s). constructor; [constructor | exact H].
    - intros H. apply Lang_Cat in H as (s1 & s2 & -> & H1 & H2).
      apply Lang_Eps in H1. now subst. }
  destruct r1; destruct r2; simpl; try tauto;
    try (split; [intros H; now apply Lang_Void in H
               | intros H; exfalso; solve [eapply V1; exact H | eapply V2; exact H]]);
    try apply E.
Qed.

Lemma alt__spec (r1 r2 : regex) (s : string) :
  Lang (alt_ r1 r2) s <-> Lang (Alt r1 r2) s.
Proof.
  assert (L : forall r, Lang r s <-> Lang (Alt Void r) s).
  { intros r. split; [apply LangAltR|].
    intros H. apply Lang_Alt in H as [H|H]; [now apply Lang_Void in H | assumption]. }
  assert (R : forall r, Lang r s <-> Lang (Alt r Void) s).
  { intros r. split; [apply LangAltL|].
    intros H. apply Lang_Alt in H as [H|H]; [assumption | now apply Lang_Void in H]. }
  destruct r1; destruct r2; simpl; try tauto; try apply L; try apply R.
Qed.

(** A non-empty word of [r*] starts with a non-empty word of [r]. *)
Lemma Lang_Star_cons (r : regex) (c : ascii) (s : string) :
  Lang (Star r) (String c s) ->
  exists s1 s2, s = s1 ++ s2 /\ Lang r (String c s1) /\ Lang (Star r) s2.
Proof.
  intros H. remember (Star r) as r' eqn:Er. remember (String c s) as w eqn:Ew.
  induction H as [| | | | | |r0 s1 s2 H1 _ H2 IH2]; try discriminate.
  injection Er as ->. destruct s1 as [|d s1]; simpl in Ew.
  - now apply IH2.
  - injection Ew as -> <-. now exists s1, s2.
Qed.

Lemma deriv_spec (r : regex) (c : ascii) (s : string) :
  Lang (deriv c r) s <-> Lang r (String c s).
Proof.
  revert s.
  induction r as [| |neg items|r1 IH1 r2 IH2|r1 IH1 r2 IH2|r IH]; intros s; simpl.
  - split; intros H; inversion H.
  - split; intros H; inversion H.
  - destruct (class_mem neg items c) eqn:E; split; intros H.
    + apply Lang_Eps in H. subst. now constructor.
    + apply Lang_Class in H as (d & [= <- ->] & _). constructor.
    + now apply Lang_Void in H.
    + apply Lang_Class in H as (d & [= <- ->] & H). congruence.
  - rewrite alt__spec. split; intros H.
    + apply Lang_Alt in H as [H|H].
      * apply cat__spec, Lang_Cat in H as (s1 & s2 & -> & H1 & H2).
        apply IH1 in H1. change (Lang (Cat r1 r2) (String c s1 ++ s2)).
        now constructor.
      * destruct (nullable r1) eqn:N; [|now apply Lang_Void in H].
        apply nullable_spec in N. apply IH2 in H.
        change (Lang (Cat r1 r2) ("" ++ String c s)). now constructor.
    + apply Lang_Cat in H as (s1 & s2 & E & H1 & H2).
      destruct s1 as [|d s1]; simpl in E.
      * subst s2. apply LangAltR. apply nullable_spec in H1. rewrite H1.
        now apply IH2.
      * injection E as <- ->. apply LangAltL, cat__spec.
        constructor; [now apply IH1 | assumption].
  - rewrite alt__spec. split; intros H.
    + apply Lang_Alt in H as [H|H];
        [apply LangAltL; now apply IH1 | apply LangAltR; now apply IH2].
    + apply Lang_Alt in H as [H|H];
        [apply LangAltL; now apply IH1 | apply LangAltR; now apply IH2].
  - rewrite cat__spec. split; intros H.
    + apply Lang_Cat in H as (s1 & s2 & -> & H1 & H2).
      apply IH in H1. change (Lang (Star r) (String c s1 ++ s2)).
      now constructor.
    + apply Lang_Star_cons in H as (s1 & s2 & -> & H1 & H2).
      constructor; [now apply IH | assumption].
Qed.

Lemma match_here_spec (r : regex) (anchored : bool) (s : string) :
  match_here r anchored s = true <->
  exists m rest, s = m ++ rest /\ Lang r m /\ end_ok anchored rest = true.
Proof.
  revert r. induction s as [|c s IH]; intros r; simpl.
  - rewrite orb_false_r, andb_true_iff, nullable_spec. split.
    + intros [H1 H2]. now exists "", "".
    + intros (m & rest & E & H1 & H2). symmetry in E.
      apply append_eq_nil in E as [-> ->]. now split.
  - rewrite orb_true_iff, andb_true_iff, nullable_spec, IH. split.
    + intros [[H1 H2] | (m & rest & -> & H1 & H2)].
      * now exists "", (String c s).
      * exists (String c m), rest. split; [reflexivity|].
        split; [now apply deriv_spec | assumption].
    + intros (m & rest & E & H1 & H2). destruct m as [|d m]; simpl in E.
      * left. subst rest. now split.
      * injection E as <- ->. right. exists m, rest.
        split; [reflexivity|]. split; [now apply deriv_spec | assumption].
Qed.

Lemma search_from_spec (p : pattern) (s : string) :
  search_from p s = true <->
  exists pre m rest,
    s = pre ++ m ++ rest /\ Lang (body p) m /\ end_ok (anchor_end p) rest = true.
Proof.
  induction s as [|c s IH]; cbn [search_from].
  - rewrite orb_false_r, match_here_spec. split.
    + intros (m & rest & E & H). now exists "", m, rest.
    + intros (pre & m & rest & E & H). exists m, rest.
      destruct pre; simpl in E; [now split | discriminate].
  - rewrite orb_true_iff, match_here_spec, IH. split.
    + intros [(m & rest & E & H) | (pre & m & rest & -> & H)].
      * now exists "", m, rest.
      * now exists (String c pre), m, rest.
    + intros (pre & m & rest & E & H). destruct pre as [|d pre]; simpl in E.
      * left. now exists m, rest.
      * injection E as <- ->. right. now exists pre, m, rest.
Qed.

End ReFacts.

(** ** The hostname sanitizer *)

Module SanitizerFacts.
Import PyStr Re Sanitizer Rfc1123 StrFacts ReFacts.

(** The body of [sanitize_hostname] once the argument is known to be a
    non-empty string. *)
Lemma sanitize_hostname_nonempty (cfg : Config) (raw : string) :
  raw <> "" ->
  sanitize_hostname cfg (Some raw) =
  let hostname := lower (strip raw) in
  if (len hostname <? MIN_HOSTNAME_LENGTH cfg)%Z
     || (len hostname >? MAX_HOSTNAME_LENGTH cfg)%Z
  then None
  else if negb (re_match hostname_pattern hostname) then None
  else if existsb (fun p => re_search p hostname) suspicious_patterns
  then None
  else Some hostname.
Proof. destruct raw; [congruence | reflexivity]. Qed.

Lemma sanitize_hostname_Some (cfg : Config) (raw x : string) :
  sanitize_hostname cfg (Some raw) = Some x <->
  raw <> "" /\ x = lower (strip raw)
  /\ (MIN_HOSTNAME_LENGTH cfg <= len x <= MAX_HOSTNAME_LENGTH cfg)%Z
  /\ re_match hostname_pattern x = true
  /\ existsb (fun p => re_search p x) suspicious_patterns = false.
Proof.
  destruct raw as [|c raw].
  { simpl. split; [discriminate | intros [H _]; congruence]. }
  rewrite sanitize_hostname_nonempty by discriminate. cbv zeta.
  set (h := lower (strip (String c raw))).
  destruct (len h <? _)%Z eqn:E1; cbn [orb negb].
  { split; [discriminate|]. intros (_ & -> & H & _). lia. }
  destruct (len h >? _)%Z eqn:E2; cbn [orb negb].
  { split; [discriminate|]. intros (_ & -> & H & _). lia. }
  destruct (re_match hostname_pattern h) eqn:E3; cbn [orb negb].
  2:{ split; [discriminate|]. intros (_ & -> & _ & H & _). congruence. }
  destruct (existsb _ suspicious_patterns) eqn:E4.
  { split; [discriminate|]. intros (_ & -> & _ & _ & H). congruence. }
  split.
  - intros [= <-]. repeat split; try discriminate; try assumption; lia.
  - intros (_ & -> & _). reflexivity.
Qed.

(** Sanitizing a sanitized hostname returns it unchanged. *)
Lemma sanitize_hostname_fixpoint (cfg : Config) (raw x : string) :
  sanitize_hostname cfg (Some raw) = Some x ->
  sanitize_hostname cfg (Some x) = Some x.
Proof.
  intros H. apply sanitize_hostname_Some in H as (_ & -> & Hl & Hm & Hs).
  apply sanitize_hostname_Some. rewrite normalise_idem.
  repeat split; try assumption; try lia.
  intros E. rewrite E in Hm. discriminate.
Qed.

Lemma sanitize_hostname_idem (cfg : Config) (o : option string) :
  sanitize_hostname cfg (sanitize_hostname cfg o) = sanitize_hostname cfg o.
Proof.
  destruct o as [raw|]; [|reflexivity].
  destruct (sanitize_hostname cfg (Some raw)) as [x|] eqn:E; [|reflexivity].
  now apply sanitize_hostname_fixpoint in E.
Qed.

(** A lowercased character outside [[a-z0-9.-]] is also outside
    [[a-zA-Z0-9.-]]. *)
Lemma foreign_lower_char (c : ascii) :
  is_hostname_char (lower_char c) = false ->
  class_mem true allowed (lower_char c) = true.
Proof. each_char c. Qed.

Lemma match_here_class (neg : bool) (items : list class_item) (c : ascii)
      (s : string) :
  class_mem neg items c = true ->
  match_here (Class neg items) false (String c s) = true.
Proof.
  intros H. apply match_here_spec. exists (String c ""), s.
  split; [reflexivity|]. split; [now constructor | reflexivity].
Qed.

Lemma foreign_char_found (s : string) :
  has_char (fun c => negb (is_hostname_char c)) (lower s) = true ->
  re_search (Pattern false (Class true allowed) false) (lower s) = true.
Proof.
  unfold re_search. cbn [anchor_start].
  induction s as [|c s IH]; cbn [lower has_char search_from body anchor_end].
  - discriminate.
  - intros H. apply orb_true_iff in H as [H|H].
    + rewrite match_here_class; [reflexivity|].
      apply foreign_lower_char. now apply negb_true_iff.
    + rewrite IH by assumption. apply orb_true_r.
Qed.

(** C4, as the specification words it: a character outside [[a-z0-9.-]]
    after lowercasing alone would make the sanitizer return [None].  The
    sanitizer trims before it looks at the characters, so surrounding blanks
    do not count: the padded host name of the test suite is accepted. *)
Lemma sanitize_hostname_accepts_padded :
  ~ (forall (cfg : Config) (s : string),
        has_char (fun c => negb (is_hostname_char c)) (lower s) = true ->
        sanitize_hostname cfg (Some s) = None).
Proof.
  intros H.
  specialize (H test_config "  test.example.com  " eq_refl).
  vm_compute in H. discriminate.
Qed.

(** C4, amended: for every string that, after trimming and lowercasing,
    contains at least one character outside [[a-z0-9.-]],
    [sanitize_hostname] returns [None]. *)
Theorem sanitize_hostname_rejects_foreign_chars (cfg : Config) (s : string) :
  has_char (fun c => negb (is_hostname_char c)) (lower (strip s)) = true ->
  sanitize_hostname cfg (Some s) = None.
Proof.
  intros H. destruct (sanitize_hostname cfg (Some s)) as [x|] eqn:E;
    [|reflexivity].
  apply sanitize_hostname_Some in E as (_ & -> & _ & _ & Hs).
  apply foreign_char_found in H. cbn [existsb suspicious_patterns] in Hs.
  rewrite H in Hs. rewrite !orb_true_r in Hs. discriminate.
Qed.

Lemma sanitize_hostname_rejects_foreign_chars_witness :
  sanitize_hostname test_config (Some " host@name ") = None.
Proof.
  apply (sanitize_hostname_rejects_foreign_chars test_config " host@name ").
  vm_compute. reflexivity.
Defined.

(** C6: [sanitize_hostname] returns [None] for [None], for the empty string
    and for every input whose length after trimming and lowercasing is below
    the configured minimum or above the configured maximum; with the
    defaults 1 and 253 a string of 300 characters is rejected. *)
Theorem sanitize_hostname_length_bounds (cfg : Config) (s : string) :
  (len (lower (strip s)) < MIN_HOSTNAME_LENGTH cfg
   \/ len (lower (strip s)) > MAX_HOSTNAME_LENGTH cfg)%Z ->
  sanitize_hostname cfg (Some s) = None
  /\ sanitize_hostname cfg None = None
  /\ sanitize_hostname cfg (Some "") = None
  /\ MIN_HOSTNAME_LENGTH test_config = 1%Z
  /\ MAX_HOSTNAME_LENGTH test_config = 253%Z
  /\ sanitize_hostname test_config (Some (repeat_char "a" 300)) = None.
Proof.
  intros H. repeat split.
  destruct (sanitize_hostname cfg (Some s)) as [x|] eqn:E; [|reflexivity].
  apply sanitize_hostname_Some in E as (_ & -> & Hl & _). lia.
Qed.

Lemma sanitize_hostname_length_bounds_witness :
  sanitize_hostname test_config (Some (repeat_char "a" 300)) = None.
Proof.
  apply (sanitize_hostname_length_bounds test_config (repeat_char "a" 300)).
  right. vm_compute. reflexivity.
Defined.

End SanitizerFacts.

(** ** The pattern of the source accepts the host names of RFC 1123 *)

Module Rfc1123Facts.
Import PyStr Re Sanitizer Rfc1123 StrFacts ReFacts SanitizerFacts.

Lemma all_chars_append (p : ascii -> bool) (a b : string) :
  all_chars p (a ++ b) = all_chars p a && all_chars p b.
Proof.
  induction a as [|c a IH]; simpl; [reflexivity|].
  now rewrite IH, andb_assoc.
Qed.

Lemma all_chars_ext (p q : ascii -> bool) (s : string) :
  (forall c, p c = q c) -> all_chars p s = all_chars q s.
Proof.
  intros H. induction s as [|c s IH]; simpl; [reflexivity|].
  now rewrite H, IH.
Qed.

Lemma last_char_append (a b : string) :
  b <> "" -> last_char (a ++ b) = last_char b.
Proof.
  intros Hb. induction a as [|c a IH]; simpl; [reflexivity|].
  rewrite <- IH. destruct (a ++ b) eqn:E; [|reflexivity].
  apply append_eq_nil in E as [_ E]. contradiction.
Qed.

Lemma snoc_decomp (c : ascii) (s : string) :
  exists m d, String c s = m ++ String d "".
Proof.
  revert c. induction s as [|c' s IH]; intros c.
  - now exists "", c.
  - destruct (IH c') as (m & d & E). exists (String c m), d.
    simpl. now rewrite E.
Qed.

Lemma class_alnum (c : ascii) : class_mem false alnum c = is_alnum c.
Proof. each_char c. Qed.

Lemma class_label_char (c : ascii) :
  class_mem false (alnum ++ [Chr "-"]) c = is_label_char c.
Proof. each_char c. Qed.

Lemma Upto_Lang (items : list class_item) (n : nat) (m : string) :
  String.length m <= n ->
  all_chars (class_mem false items) m = true ->
  Lang (Upto n (Class false items)) m.
Proof.
  revert m. induction n as [|n IH]; intros m Hl Ha.
  - destruct m; simpl in Hl; [constructor | lia].
  - destruct m as [|c m]; simpl in *.
    + apply LangAltL. constructor.
    + apply andb_true_iff in Ha as [Hc Ha]. apply LangAltR.
      change (String c m) with (String c "" ++ m).
      constructor; [now constructor | apply IH; [lia | assumption]].
Qed.

Lemma valid_label_Lang (l : string) : valid_label l = true -> Lang label_re l.
Proof.
  unfold valid_label. rewrite !andb_true_iff.
  intros ((((H1 & H2) & Ha) & Hf) & Hl).
  apply Nat.leb_le in H2.
  destruct l as [|c l]; [discriminate|]. simpl in Hf.
  change (String c l) with (String c "" ++ l). unfold label_re.
  constructor; [constructor; now rewrite class_alnum|].
  destruct l as [|c' l]; [apply LangAltL; constructor|].
  apply LangAltR.
  destruct (snoc_decomp c' l) as (m & d & E).
  change (last_char (String c (String c' l))) with (last_char (String c' l)) in Hl.
  simpl in Ha. apply andb_true_iff in Ha as [_ Ha].
  change (all_chars is_label_char (String c' l) = true) in Ha.
  rewrite E in *. rewrite last_char_append in Hl by discriminate.
  rewrite all_chars_append in Ha. apply andb_true_iff in Ha as [Ha _].
  cbn [String.length] in H2. rewrite length_append in H2. simpl in H2, Hl.
  constructor.
  - apply Upto_Lang; [lia|].
    rewrite (all_chars_ext _ is_label_char); [assumption|].
    apply class_label_char.
  - constructor. now rewrite class_alnum.
Qed.

Lemma split_dots_nonempty (s : string) : split_dots s <> [].
Proof.
  destruct s as [|c s]; simpl; [discriminate|].
  destruct (Ascii.eqb c "."); [discriminate|].
  destruct (split_dots s); discriminate.
Qed.

Lemma split_dots_Lang (s : string) (l : string) (ls : list string) :
  split_dots s = l :: ls ->
  forallb valid_label ls = true ->
  exists t, s = l ++ t /\ Lang (Star dot_label) t.
Proof.
  revert l ls. induction s as [|c s IH]; intros l ls E V; simpl in E.
  - injection E as <- <-. exists "". split; [reflexivity | constructor].
  - destruct (Ascii.eqb c ".") eqn:Ec.
    + apply Ascii.eqb_eq in Ec. subst c. injection E as <- <-.
      destruct (split_dots s) as [|l' ls'] eqn:Es;
        [now apply split_dots_nonempty in Es|].
      simpl in V. apply andb_true_iff in V as [V1 V2].
      destruct (IH l' ls' eq_refl V2) as (t & -> & Ht).
      exists (String "." l' ++ t). split; [reflexivity|].
      constructor; [|assumption].
      change (String "." l') with (String "." "" ++ l').
      constructor; [now constructor | now apply valid_label_Lang].
    + destruct (split_dots s) as [|l' ls'] eqn:Es.
      * now apply split_dots_nonempty in Es.
      * injection E as <- <-.
        destruct (IH l' ls' eq_refl V) as (t & -> & Ht).
        now exists t.
Qed.

Lemma rfc1123_Lang (s : string) :
  rfc1123_hostname s = true -> Lang (body hostname_pattern) s.
Proof.
  unfold rfc1123_hostname. intros V.
  destruct (split_dots s) as [|l ls] eqn:E.
  - now apply split_dots_nonempty in E.
  - simpl in V. apply andb_true_iff in V as [V1 V2].
    destruct (split_dots_Lang s l ls E V2) as (t & -> & Ht).
    simpl. constructor; [now apply valid_label_Lang | exact Ht].
Qed.

Lemma Lang_within (p : ascii -> bool) (r : regex) (s : string) :
  within p r -> Lang r s -> all_chars p s = true.
Proof.
  intros W H. induction H; simpl in *; try reflexivity.
  - now rewrite W.
  - destruct W as [W1 W2]. rewrite all_chars_append.
    now rewrite IHLang1, IHLang2.
  - apply IHLang, W.
  - apply IHLang, W.
  - rewrite all_chars_append. now rewrite IHLang1, IHLang2.
Qed.

Lemma within_Upto (p : ascii -> bool) (n : nat) (r : regex) :
  within p r -> within p (Upto n r).
Proof. intros W. induction n; simpl; auto. Qed.

Lemma hostname_pattern_within :
  within (class_mem false allowed) (body hostname_pattern).
Proof.
  assert (A : forall c, class_mem false alnum c = true ->
                        class_mem false allowed c = true) by (intros c; each_char c).
  assert (B : forall c, class_mem false (alnum ++ [Chr "-"]) c = true ->
                        class_mem false allowed c = true) by (intros c; each_char c).
  assert (D : forall c, class_mem false [Chr "."] c = true ->
                        class_mem false allowed c = true) by (intros c; each_char c).
  assert (L : within (class_mem false allowed) label_re).
  { unfold label_re, Opt. cbn [within]. repeat split; try assumption;
      try (apply within_Upto; exact B). }
  cbn [body hostname_pattern within dot_label Lit]. repeat split; assumption.
Qed.

Lemma Lang_label_first (l : string) :
  Lang label_re l -> exists c l', l = String c l' /\ is_alnum c = true.
Proof.
  intros H. apply Lang_Cat in H as (s1 & s2 & -> & H1 & _).
  apply Lang_Class in H1 as (c & -> & Hc). rewrite class_alnum in Hc.
  now exists c, s2.
Qed.

Lemma Lang_label_last (l : string) :
  Lang label_re l -> holds is_alnum (last_char l) = true.
Proof.
  intros H. apply Lang_Cat in H as (s1 & s2 & -> & H1 & H2).
  apply Lang_Class in H1 as (c & -> & Hc). rewrite class_alnum in Hc.
  apply Lang_Alt in H2 as [H2|H2].
  - apply Lang_Eps in H2. now subst.
  - apply Lang_Cat in H2 as (m & e & -> & _ & He).
    apply Lang_Class in He as (d & -> & Hd). rewrite class_alnum in Hd.
    rewrite <- append_assoc, last_char_append by discriminate. exact Hd.
Qed.

Lemma holds_nonempty (p : ascii -> bool) (s : string) :
  holds p (last_char s) = true -> s <> "".
Proof. intros H ->. discriminate. Qed.

Lemma Lang_dot_labels_last (t : string) :
  Lang (Star dot_label) t -> t = "" \/ holds is_alnum (last_char t) = true.
Proof.
  intros H. remember (Star dot_label) as r eqn:Er.
  induction H as [| | | | | |r0 s1 s2 H1 _ H2 IH2]; try discriminate.
  - now left.
  - injection Er as ->. right.
    apply Lang_Cat in H1 as (d & l & -> & _ & Hl).
    apply Lang_label_last in Hl.
    destruct (IH2 eq_refl) as [-> | Hs].
    + rewrite append_nil_r, last_char_append; [exact Hl|].
      now apply holds_nonempty in Hl.
    + rewrite last_char_append; [exact Hs|].
      now apply holds_nonempty in Hs.
Qed.

Lemma Lang_hostname_first (x : string) :
  Lang (body hostname_pattern) x ->
  exists c x', x = String c x' /\ is_alnum c = true.
Proof.
  intros H. apply Lang_Cat in H as (l & t & -> & Hl & _).
  apply Lang_label_first in Hl as (c & l' & -> & Hc).
  now exists c, (l' ++ t).
Qed.

Lemma Lang_hostname_last (x : string) :
  Lang (body hostname_pattern) x -> holds is_alnum (last_char x) = true.
Proof.
  intros H. apply Lang_Cat in H as (l & t & -> & Hl & Ht).
  apply Lang_label_last in Hl.
  apply Lang_dot_labels_last in Ht as [-> | Ht].
  - now rewrite append_nil_r.
  - rewrite last_char_append; [exact Ht|]. now apply holds_nonempty in Ht.
Qed.

(** An empty label that is not the first one: two dots in a row. *)
Lemma split_dots_double_dot (pre z : string) :
  In "" (tl (split_dots (pre ++ String "." (String "." z)))).
Proof.
  induction pre as [|c pre IH]; simpl.
  - now left.
  - destruct (Ascii.eqb c ".").
    + simpl. destruct (split_dots _); [contradiction | now right].
    + destruct (split_dots _); [contradiction | exact IH].
Qed.

Lemma rfc1123_no_double_dot (pre z : string) :
  rfc1123_hostname (pre ++ String "." (String "." z)) = false.
Proof.
  destruct (rfc1123_hostname _) eqn:V; [|reflexivity].
  unfold rfc1123_hostname in V. rewrite forallb_forall in V.
  pose proof (split_dots_double_dot pre z) as H.
  assert (E : valid_label "" = true).
  { apply V. destruct (split_dots _); [contradiction | now right]. }
  discriminate.
Qed.

Lemma Lang_Lit (c : ascii) (m : string) : Lang (Lit c) m -> m = String c "".
Proof.
  intros H. apply Lang_Class in H as (d & -> & Hd).
  unfold class_mem in Hd. simpl in Hd. rewrite orb_false_r in Hd.
  apply Ascii.eqb_eq in Hd. now subst.
Qed.

(** None of the four extra patterns is found in a host name of RFC 1123. *)
Lemma rfc1123_not_suspicious (x : string) :
  rfc1123_hostname x = true ->
  existsb (fun p => re_search p x) suspicious_patterns = false.
Proof.
  intros V. pose proof (rfc1123_Lang x V) as L.
  pose proof (Lang_within _ _ _ hostname_pattern_within L) as A.
  cbn [existsb suspicious_patterns]. rewrite !orb_false_iff.
  repeat split; unfold re_search; cbn [anchor_start].
  - destruct (search_from _ x) eqn:E; [exfalso | reflexivity].
    apply search_from_spec in E as (pre & m & rest & -> & Hm & _).
    cbn [body] in Hm. apply Lang_Cat in Hm as (d1 & m' & -> & H1 & H2).
    apply Lang_Cat in H2 as (d2 & w & -> & H2 & _).
    apply Lang_Lit in H1, H2. subst d1 d2. simpl in V.
    now rewrite rfc1123_no_double_dot in V.
  - destruct (re_match _ x) eqn:E; [exfalso | reflexivity].
    apply match_here_spec in E as (m & rest & -> & Hm & _).
    cbn [body] in Hm. apply Lang_Lit in Hm. subst m.
    apply Lang_hostname_first in L as (c & x' & E & Hc). simpl in E.
    injection E as <- _. discriminate.
  - destruct (search_from _ x) eqn:E; [exfalso | reflexivity].
    apply search_from_spec in E as (pre & m & rest & -> & Hm & He).
    cbn [body] in Hm. apply Lang_Lit in Hm. subst m.
    cbn [anchor_end end_ok] in He.
    destruct rest as [|c rest].
    + apply Lang_hostname_last in L.
      rewrite last_char_append in L by discriminate. discriminate.
    + destruct rest; [|discriminate]. apply Ascii.eqb_eq in He. subst c.
      rewrite all_chars_append in A. apply andb_true_iff in A as [_ A].
      vm_compute in A. discriminate.
  - destruct (search_from _ x) eqn:E; [exfalso | reflexivity].
    apply search_from_spec in E as (pre & m & rest & -> & Hm & _).
    cbn [body] in Hm. apply Lang_Class in Hm as (c & -> & Hc).
    rewrite !all_chars_append in A. cbn [all_chars] in A.
    rewrite !andb_true_iff in A. destruct A as (_ & (A & _) & _).
    unfold class_mem in A, Hc.
    destruct (existsb (item_mem c) allowed); discriminate.
Qed.

Lemma split_dots_lower (s : string) :
  split_dots (lower s) = map lower (split_dots s).
Proof.
  induction s as [|c s IH]; simpl; [reflexivity|].
  assert (E : Ascii.eqb (lower_char c) "." = Ascii.eqb c ".") by each_char c.
  rewrite E, IH. destruct (Ascii.eqb c "."); [reflexivity|].
  destruct (split_dots s); reflexivity.
Qed.

Lemma valid_label_lower (l : string) : valid_label (lower l) = valid_label l.
Proof.
  unfold valid_label. rewrite length_lower.
  assert (A : all_chars is_label_char (lower l) = all_chars is_label_char l).
  { induction l as [|c l IH]; simpl; [reflexivity|]. rewrite IH. f_equal.
    each_char c. }
  assert (K : forall c, is_alnum (lower_char c) = is_alnum c)
    by (intros c; each_char c).
  assert (F : holds is_alnum (first_char (lower l)) = holds is_alnum (first_char l)).
  { destruct l; simpl; [reflexivity | apply K]. }
  assert (L : holds is_alnum (last_char (lower l)) = holds is_alnum (last_char l)).
  { clear A F. induction l as [|c l IH]; [reflexivity|].
    destruct l as [|d l]; [apply K | exact IH]. }
  now rewrite A, F, L.
Qed.

(** Host names are valid whatever the case of their letters. *)
Lemma rfc1123_lower (s : string) :
  rfc1123_hostname (lower s) = rfc1123_hostname s.
Proof.
  unfold rfc1123_hostname. rewrite split_dots_lower.
  induction (split_dots s) as [|l ls IH]; simpl; [reflexivity|].
  now rewrite valid_label_lower, IH.
Qed.

Lemma rstrip_id (s : string) :
  holds (fun c => negb (isspace c)) (last_char s) = true -> rstrip s = s.
Proof.
  induction s as [|c s IH]; [reflexivity|].
  destruct s as [|d s].
  - simpl. intros H. apply negb_true_iff in H. now rewrite H.
  - intros H. change (rstrip (String c (String d s))) with
      (match rstrip (String d s) with
       | EmptyString => if isspace c then EmptyString else String c EmptyString
       | r => String c r
       end).
    now rewrite IH.
Qed.

(** A valid host name has no blank at either end: trimming leaves it as it
    is. *)
Lemma rfc1123_strip (h : string) : rfc1123_hostname h = true -> strip h = h.
Proof.
  intros V. apply rfc1123_Lang in V.
  assert (K : forall c, is_alnum c = true -> isspace c = false)
    by (intros c; each_char c).
  unfold strip.
  pose proof (Lang_hostname_first h V) as (c & h' & -> & Hc).
  rewrite lstrip_id by (now apply K). apply rstrip_id.
  apply Lang_hostname_last in V.
  destruct (last_char (String c h')) as [d|]; [|discriminate].
  simpl in *. now rewrite K.
Qed.

(** C5: for every valid RFC 1123 host name [h] whose length is within the
    configured bounds (surrounding blanks, which the sanitizer trims, put
    aside: [strip h = h] when [h] itself is valid, see [rfc1123_strip]),
    [sanitize_hostname] returns the input trimmed and lowercased, and
    sanitizing that result again returns it unchanged; so it is for
    ["TEST.EXAMPLE.COM"] and ["  test.example.com  "]. *)
Theorem sanitize_hostname_idempotent (cfg : Config) (h : string) :
  rfc1123_hostname (strip h) = true ->
  (MIN_HOSTNAME_LENGTH cfg <= len (strip h) <= MAX_HOSTNAME_LENGTH cfg)%Z ->
  sanitize_hostname cfg (Some h) = Some (lower (strip h))
  /\ sanitize_hostname cfg (sanitize_hostname cfg (Some h))
     = sanitize_hostname cfg (Some h)
  /\ sanitize_hostname test_config (Some "TEST.EXAMPLE.COM")
     = Some "test.example.com"
  /\ sanitize_hostname test_config (Some "  test.example.com  ")
     = Some "test.example.com".
Proof.
  intros V B.
  assert (E : sanitize_hostname cfg (Some h) = Some (lower (strip h))).
  { apply sanitize_hostname_Some. rewrite <- rfc1123_lower in V.
    split; [intros ->; discriminate|]. split; [reflexivity|].
    split; [unfold len in *; now rewrite length_lower|].
    split; [|now apply rfc1123_not_suspicious].
    apply match_here_spec. exists (lower (strip h)), "".
    split; [now rewrite append_nil_r|].
    split; [now apply rfc1123_Lang | reflexivity]. }
  split; [exact E|]. split; [apply sanitize_hostname_idem|].
  split; reflexivity.
Qed.

Lemma sanitize_hostname_idempotent_witness :
  sanitize_hostname test_config (Some "TEST.EXAMPLE.COM")
  = Some "test.example.com".
Proof.
  apply (sanitize_hostname_idempotent test_config "TEST.EXAMPLE.COM").
  - vm_compute. reflexivity.
  - vm_compute. split; discriminate.
Defined.

End Rfc1123Facts.

(** ** The controller client *)

Module ClientFacts.
Import PyStr Re Py Requests Client Handler Sanitizer Fixtures StrFacts SanitizerFacts.

Example b64encode_examples :
  b64encode (utf8 "test:test") = "dGVzdDp0ZXN0"
  /\ b64encode (utf8 "None:None") = "Tm9uZTpOb25l"
  /\ b64encode (utf8 (String (ascii_of_N 233) ":a")) = "w6k6YQ==".
Proof. vm_compute. repeat split. Qed.

Example provision_missing_hostname :
  provision test_config net_no_template (post_json (JDict [])) [] =
  ((400%Z, JDict [("error", JStr "hostname parameter is required")]), []).
Proof. vm_compute. reflexivity. Qed.

Example provision_invalid_hostname :
  provision test_config net_no_template (provision_request "host..name") [] =
  ((400%Z, JDict [("error", JStr "Invalid hostname format")]), []).
Proof. vm_compute. reflexivity. Qed.

Example provision_launches :
  fst (provision test_config net_multiple_choices
         (provision_request "testhost.example.com") []) =
  (200%Z,
   JDict [("success", JBool true);
          ("hostname", JStr "testhost.example.com");
          ("job_id", JNum 42);
          ("job_type", JStr "template");
          ("message",
           JStr "Job triggered successfully for testhost.example.com")]).
Proof. vm_compute. reflexivity. Qed.

Lemma sanitized_nonempty (cfg : Config) (raw h : string) :
  sanitize_hostname cfg (Some raw) = Some h -> raw <> "" /\ h <> "".
Proof.
  intros H. apply sanitize_hostname_Some in H as (Hr & -> & _ & Hm & _).
  split; [exact Hr|]. intros E. rewrite E in Hm. discriminate.
Qed.

(** A request with a valid hostname reaches [trigger_awx_job]. *)
Lemma provision_body_valid (cfg : Config) (net : network) (req : HttpRequest)
      (raw h : string) (calls : list Request) :
  extract_hostname req = Returned (JStr raw) ->
  sanitize_hostname cfg (Some raw) = Some h ->
  provision_body cfg net req calls =
  bind (trigger_awx_job cfg net h) (respond h) calls.
Proof.
  intros E S. destruct (sanitized_nonempty _ _ _ S) as [Hr Hh].
  unfold provision_body, bind at 1, lift. rewrite E.
  destruct raw as [|c raw]; [congruence|]. cbn [truthy String.eqb negb].
  unfold bind at 1, sanitize_hostname_value. cbn [truthy String.eqb negb].
  rewrite S. destruct h; [congruence | reflexivity].
Qed.

Lemma provision_failure (cfg : Config) (net : network) (req : HttpRequest)
      (raw h error : string) (calls calls' : list Request) :
  extract_hostname req = Returned (JStr raw) ->
  sanitize_hostname cfg (Some raw) = Some h ->
  trigger_awx_job cfg net h calls = (Returned (failure error), calls') ->
  provision cfg net req calls =
  ((500%Z, JDict [("success", JBool false); ("hostname", JStr h);
                  ("error", JStr error)]), calls').
Proof.
  intros E S T. unfold provision.
  rewrite (provision_body_valid _ _ _ _ _ _ E S). unfold bind at 1.
  rewrite T. reflexivity.
Qed.

(** C10: with neither a template name nor a workflow name configured,
    [trigger_awx_job] makes no outbound call and returns [None] for every
    hostname, and [POST /provision] with a valid hostname answers 500 with
    the body [{"error": "Internal server error"}]. *)
Theorem trigger_awx_job_without_name (cfg : Config) (net : network)
        (hostname : string) (calls : list Request) :
  configured (AWX_TEMPLATE_NAME cfg) = false ->
  configured (AWX_WORKFLOW_NAME cfg) = false ->
  trigger_awx_job cfg net hostname calls = (Returned JNull, calls)
  /\ forall (req : HttpRequest) (raw : string),
      extract_hostname req = Returned (JStr raw) ->
      sanitize_hostname cfg (Some raw) = Some hostname ->
      provision cfg net req calls =
      ((500%Z, JDict [("error", JStr "Internal server error")]), calls).
Proof.
  intros Ht Hw.
  assert (T : trigger_awx_job cfg net hostname calls = (Returned JNull, calls)).
  { unfold trigger_awx_job, try_except, trigger_awx_job_body, configured_kind.
    now rewrite Ht, Hw. }
  split; [exact T|]. intros req raw E S. unfold provision.
  rewrite (provision_body_valid _ _ _ _ _ _ E S). unfold bind at 1.
  rewrite T. reflexivity.
Qed.

Lemma trigger_awx_job_without_name_witness :
  trigger_awx_job nameless_config net_timeout "testhost" [] = (Returned JNull, [])
  /\ provision nameless_config net_timeout (provision_request "testhost") [] =
     ((500%Z, JDict [("error", JStr "Internal server error")]), []).
Proof.
  destruct (trigger_awx_job_without_name nameless_config net_timeout
              "testhost" [] eq_refl eq_refl) as [T P].
  split; [exact T|]. apply (P _ "testhost"); reflexivity.
Defined.

(** C7: when the lookup of the configured template or workflow returns no
    result, [trigger_awx_job] returns the failure ["Template not found"] or
    ["Workflow not found"] after the lookup alone (a GET: the launch POST is
    not made), and [POST /provision] answers 500 with that error. *)
Theorem trigger_awx_job_not_found (cfg : Config) (net : network) (k : kind)
        (hostname : string) (calls : list Request) (response : Response)
        (found : json) :
  configured_kind cfg = Some k ->
  net (lookup_request cfg k) = Returned response ->
  raise_for_status response = Returned tt ->
  json_body response = Returned found ->
  py_get found "results" (JList []) = Returned (JList []) ->
  trigger_awx_job cfg net hostname calls =
    (Returned (JDict [("success", JBool false);
                      ("error", JStr (match k with
                                      | Template => "Template not found"
                                      | Workflow => "Workflow not found"
                                      end))]),
     (calls ++ [lookup_request cfg k])%list)
  /\ req_method (lookup_request cfg k) = GET
  /\ forall (req : HttpRequest) (raw : string),
      extract_hostname req = Returned (JStr raw) ->
      sanitize_hostname cfg (Some raw) = Some hostname ->
      provision cfg net req calls =
      ((500%Z,
        JDict [("success", JBool false); ("hostname", JStr hostname);
               ("error", JStr (match k with
                               | Template => "Template not found"
                               | Workflow => "Workflow not found"
                               end))]),
       (calls ++ [lookup_request cfg k])%list).
Proof.
  intros K N R J G.
  assert (T : trigger_awx_job cfg net hostname calls =
              (Returned (failure (not_found k)),
               (calls ++ [lookup_request cfg k])%list)).
  { unfold trigger_awx_job, try_except, trigger_awx_job_body. rewrite K.
    unfold launch, bind, send, lift. rewrite N, R, J, G. reflexivity. }
  split; [destruct k; exact T|]. split; [reflexivity|].
  intros req raw E S. rewrite (provision_failure _ _ _ _ _ _ _ _ E S T).
  destruct k; reflexivity.
Qed.

Lemma trigger_awx_job_not_found_witness :
  provision test_config net_no_template (provision_request "testhost.example.com") [] =
  ((500%Z,
    JDict [("success", JBool false); ("hostname", JStr "testhost.example.com");
           ("error", JStr "Template not found")]),
   [lookup_request test_config Template]).
Proof.
  refine (proj2 (proj2 (trigger_awx_job_not_found test_config net_no_template
                          Template "testhost.example.com" [] _ _
                          eq_refl eq_refl eq_refl eq_refl eq_refl))
                (provision_request "testhost.example.com")
                "testhost.example.com" eq_refl eq_refl).
Defined.

(** [trigger_awx_job] turns every exception of its [try] block into a
    result. *)
Lemma trigger_awx_job_raised (cfg : Config) (net : network) (h : string)
      (calls calls' : list Request) (e : exn) :
  trigger_awx_job_body cfg net h calls = (Raised e, calls') ->
  trigger_awx_job cfg net h calls = on_exception e calls'.
Proof. intros H. unfold trigger_awx_job, try_except. now rewrite H. Qed.

Lemma lookup_fails (cfg : Config) (net : network) (k : kind) (h : string)
      (calls : list Request) (e : exn) :
  fails net (lookup_request cfg k) e ->
  launch cfg net k h calls = (Raised e, (calls ++ [lookup_request cfg k])%list).
Proof.
  unfold launch, bind, send, lift.
  intros [H | (response & H & R)]; rewrite H; [reflexivity|].
  now rewrite R.
Qed.

Lemma launch_fails (cfg : Config) (net : network) (k : kind) (h : string)
      (calls : list Request) (template_id : json) (e : exn) :
  resolves cfg net k template_id ->
  fails net (launch_request cfg k template_id h) e ->
  launch cfg net k h calls =
  (Raised e,
   (calls ++ [lookup_request cfg k; launch_request cfg k template_id h])%list).
Proof.
  intros (response & found & templates & first & N & R & J & G & T & F & I) H.
  unfold launch, bind, send, lift. rewrite N, R, J, G, T, F, I. cbn [negb].
  rewrite <- app_assoc. cbn [app].
  destruct H as [H | (response' & H & R')]; rewrite H; [reflexivity|].
  now rewrite R'.
Qed.

(** What one branch of the [try] block returns, and the calls it makes: the
    lookup, and at most one launch after it. *)
Lemma launch_outcome (cfg : Config) (net : network) (k : kind) (h : string)
      (calls : list Request) :
  exists made,
    snd (launch cfg net k h calls) = (calls ++ made)%list
    /\ (made = [lookup_request cfg k]
        \/ exists template_id,
             made = [lookup_request cfg k; launch_request cfg k template_id h])
    /\ forall r, fst (launch cfg net k h calls) = Returned r ->
                 r = failure (not_found k)
                 \/ exists job_id, r = success job_id k h.
Proof.
  unfold launch, bind, send, lift, ret.
  destruct (net (lookup_request cfg k)) as [response|e]; cbn [fst snd];
    [|exists [lookup_request cfg k]; repeat split; auto; discriminate].
  destruct (raise_for_status response);
    [|exists [lookup_request cfg k]; repeat split; auto; discriminate].
  destruct (json_body response) as [found|e];
    [|exists [lookup_request cfg k]; repeat split; auto; discriminate].
  destruct (py_get found "results" (JList [])) as [templates|e];
    [|exists [lookup_request cfg k]; repeat split; auto; discriminate].
  destruct (truthy templates); cbn [negb fst snd].
  2:{ exists [lookup_request cfg k]. repeat split; auto.
      intros r [= <-]. now left. }
  destruct (py_getitem_0 templates) as [first|e];
    [|exists [lookup_request cfg k]; repeat split; auto; discriminate].
  destruct (py_getitem first "id") as [template_id|e];
    [|exists [lookup_request cfg k]; repeat split; auto; discriminate].
  exists [lookup_request cfg k; launch_request cfg k template_id h].
  assert (A : ((calls ++ [lookup_request cfg k])
               ++ [launch_request cfg k template_id h])%list
              = (calls ++ [lookup_request cfg k;
                           launch_request cfg k template_id h])%list)
    by now rewrite <- app_assoc.
  destruct (net (launch_request cfg k template_id h)) as [response'|e];
    cbn [fst snd]; [|repeat split; eauto; discriminate].
  destruct (raise_for_status response');
    [|repeat split; eauto; discriminate].
  destruct (json_body response') as [job_data|e];
    [|repeat split; eauto; discriminate].
  destruct (py_get job_data "id" JNull) as [job_id|e]; cbn [fst snd];
    [|repeat split; eauto; discriminate].
  repeat split; eauto. intros r [= <-]. right. now exists job_id.
Qed.

(** The calls of [trigger_awx_job]: none, the lookup, or the lookup and one
    launch. *)
Lemma trigger_awx_job_calls (cfg : Config) (net : network) (h : string)
      (calls : list Request) :
  exists made,
    snd (trigger_awx_job cfg net h calls) = (calls ++ made)%list
    /\ Forall (fun rq => req_headers rq = headers cfg) made
    /\ (List.length made <= 2)%nat.
Proof.
  unfold trigger_awx_job, try_except, trigger_awx_job_body.
  destruct (configured_kind cfg) as [k|].
  - destruct (launch_outcome cfg net k h calls) as (made & E & M & _).
    exists made. split.
    + destruct (launch cfg net k h calls) as [[r|e] calls']; [exact E|].
      unfold on_exception, ret.
      destruct (is_timeout e); [exact E|].
      destruct (is_request_exception e); exact E.
    + destruct M as [-> | (template_id & ->)]; split; repeat constructor.
  - exists []. cbn. rewrite app_nil_r. repeat constructor.
Qed.

(** C9: the [Authorization] header is [Bearer <token>] when a token is
    configured, whatever the user name and password are (the token takes
    precedence), and HTTP Basic authentication built from the user name and
    the password otherwise; every outbound call of [trigger_awx_job] carries
    it, after the content type. *)
Theorem authorization_header (cfg : Config) (net : network) (hostname : string)
        (calls : list Request) :
  (forall token, AWX_TOKEN cfg = Some token -> token <> "" ->
     get_awx_auth_headers cfg = [("Authorization", "Bearer " ++ token)])
  /\ (configured (AWX_TOKEN cfg) = false ->
      get_awx_auth_headers cfg =
      [("Authorization",
        "Basic " ++ b64encode (utf8 (fmt (AWX_USERNAME cfg) ++ ":"
                                     ++ fmt (AWX_PASSWORD cfg))))])
  /\ exists made,
      snd (trigger_awx_job cfg net hostname calls) = (calls ++ made)%list
      /\ Forall (fun rq =>
                   req_headers rq =
                   ("Content-Type", "application/json")
                     :: get_awx_auth_headers cfg) made.
Proof.
  split; [|split].
  - intros token E N. unfold get_awx_auth_headers. rewrite E.
    destruct token; [congruence | reflexivity].
  - intros E. unfold get_awx_auth_headers. now rewrite E.
  - destruct (trigger_awx_job_calls cfg net hostname calls) as (made & E & F & _).
    now exists made.
Qed.

Lemma authorization_header_witness :
  get_awx_auth_headers token_config = [("Authorization", "Bearer s3cr3t")]
  /\ get_awx_auth_headers test_config = [("Authorization", "Basic dGVzdDp0ZXN0")].
Proof.
  split.
  - apply (proj1 (authorization_header token_config net_timeout "testhost" [])
             "s3cr3t" eq_refl). discriminate.
  - apply (proj1 (proj2 (authorization_header test_config net_timeout
                           "testhost" [])) eq_refl).
Defined.

Lemma raise_for_status_error (response : Response) :
  (400 <= status_code response < 600)%Z ->
  exists e, raise_for_status response = Raised e
            /\ exn_class_of e = HTTPError.
Proof.
  intros H. unfold raise_for_status.
  destruct (400 <=? status_code response)%Z eqn:A; [|lia].
  destruct (status_code response <? 500)%Z eqn:B; cbn [andb]; [eauto|].
  destruct (500 <=? status_code response)%Z eqn:C; [|lia].
  destruct (status_code response <? 600)%Z eqn:D; cbn [andb]; [eauto | lia].
Qed.

(** C8, as the specification words it: every response that is not 2xx
    would yield a failure.  [raise_for_status] raises for 4xx and 5xx only:
    a lookup answered with status 300 and a usable document goes on to the
    launch, and the result is a success. *)
Lemma trigger_awx_job_accepts_redirection :
  exists response,
    net_multiple_choices (lookup_request test_config Template) = Returned response
    /\ status_code response = 300%Z
    /\ trigger_awx_job test_config net_multiple_choices "testhost" [] =
       (Returned (JDict [("success", JBool true); ("job_id", JNum 42);
                         ("job_type", JStr "template");
                         ("hostname", JStr "testhost")]),
        [lookup_request test_config Template;
         launch_request test_config Template (JNum 7) "testhost"]).
Proof. eexists. repeat split. Qed.

(** C8, amended: a timeout of either outbound call yields the failure
    ["AWX API timeout"], a message that nothing but a timeout produces; any
    other transport error, and any response with a 4xx or 5xx status, yields
    the failure ["AWX API error: "] followed by the error detail; the failed
    call is the last one made, once: the lookup alone, or the lookup and the
    launch. *)
Theorem trigger_awx_job_outbound_failure (cfg : Config) (net : network)
        (k : kind) (hostname : string) (calls : list Request) :
  configured_kind cfg = Some k ->
  (forall e, fails net (lookup_request cfg k) e ->
     (is_timeout e = true ->
      trigger_awx_job cfg net hostname calls =
      (Returned (JDict [("success", JBool false);
                        ("error", JStr "AWX API timeout")]),
       (calls ++ [lookup_request cfg k])%list))
     /\ (is_timeout e = false -> is_request_exception e = true ->
         trigger_awx_job cfg net hostname calls =
         (Returned (JDict [("success", JBool false);
                           ("error", JStr ("AWX API error: " ++ exn_msg e))]),
          (calls ++ [lookup_request cfg k])%list)))
  /\ (forall template_id e,
       resolves cfg net k template_id ->
       fails net (launch_request cfg k template_id hostname) e ->
       (is_timeout e = true ->
        trigger_awx_job cfg net hostname calls =
        (Returned (JDict [("success", JBool false);
                          ("error", JStr "AWX API timeout")]),
         (calls ++ [lookup_request cfg k;
                    launch_request cfg k template_id hostname])%list))
       /\ (is_timeout e = false -> is_request_exception e = true ->
           trigger_awx_job cfg net hostname calls =
           (Returned (JDict [("success", JBool false);
                             ("error", JStr ("AWX API error: " ++ exn_msg e))]),
            (calls ++ [lookup_request cfg k;
                       launch_request cfg k template_id hostname])%list)))
  /\ (forall response, (400 <= status_code response < 600)%Z ->
       exists e, raise_for_status response = Raised e
                 /\ is_timeout e = false /\ is_request_exception e = true)
  /\ (forall calls',
       trigger_awx_job cfg net hostname calls =
       (Returned (JDict [("success", JBool false);
                         ("error", JStr "AWX API timeout")]), calls') ->
       exists e, trigger_awx_job_body cfg net hostname calls = (Raised e, calls')
                 /\ is_timeout e = true).
Proof.
  intros K.
  assert (B : trigger_awx_job_body cfg net hostname calls
              = launch cfg net k hostname calls).
  { unfold trigger_awx_job_body. now rewrite K. }
  split; [|split; [|split]].
  - intros e F. pose proof (lookup_fails cfg net k hostname calls e F) as L.
    rewrite <- B in L. apply trigger_awx_job_raised in L. rewrite L.
    unfold on_exception, ret. split.
    + now intros ->.
    + now intros -> ->.
  - intros template_id e R F.
    pose proof (launch_fails cfg net k hostname calls template_id e R F) as L.
    rewrite <- B in L. apply trigger_awx_job_raised in L. rewrite L.
    unfold on_exception, ret. split.
    + now intros ->.
    + now intros -> ->.
  - intros response H.
    destruct (raise_for_status_error response H) as (e & E & C).
    exists e. unfold is_timeout, is_request_exception. now rewrite C.
  - intros calls' T. unfold trigger_awx_job, try_except in T. rewrite B in *.
    destruct (launch_outcome cfg net k hostname calls) as (_ & _ & _ & R).
    destruct (launch cfg net k hostname calls) as [[r|e] c].
    + injection T as -> ->.
      destruct (R _ eq_refl) as [E | (job_id & E)]; [|discriminate].
      destruct k; discriminate.
    + unfold on_exception, ret in T. exists e.
      destruct (is_timeout e); [injection T as ->; now split|].
      destruct (is_request_exception e); simpl in T; discriminate.
Qed.

Lemma trigger_awx_job_outbound_failure_witness :
  trigger_awx_job test_config net_timeout "testhost" [] =
    (Returned (JDict [("success", JBool false);
                      ("error", JStr "AWX API timeout")]),
     [lookup_request test_config Template])
  /\ trigger_awx_job test_config net_unavailable "testhost" [] =
     (Returned (JDict [("success", JBool false);
                       ("error",
                        JStr ("AWX API error: 503 Server Error: "
                              ++ "Service Unavailable for url: "
                              ++ "https://test.example.com/api/v2/job_templates/"))]),
      [lookup_request test_config Template]).
Proof.
  split.
  - apply (proj1 (trigger_awx_job_outbound_failure test_config net_timeout
                    Template "testhost" [] eq_refl)
             (Exn Timeout "Read timed out. (read timeout=10)"));
      [left|]; reflexivity.
  - refine (proj2 (proj1 (trigger_awx_job_outbound_failure test_config
                            net_unavailable Template "testhost" [] eq_refl)
                     (Exn HTTPError _) _) eq_refl eq_refl).
    right. eexists. split; reflexivity.
Defined.

(** C1, as the specification words it: no unexpected exception would show
    in the body of the 500 response.  A lookup whose first result has no
    [id] raises [KeyError('id')] inside [trigger_awx_job], whose last
    [except] clause puts the text of the exception into the error that the
    handler sends back. *)
Lemma provision_exposes_unexpected_error :
  trigger_awx_job_body test_config net_missing_id "testhost" [] =
    (Raised (Exn KeyError "'id'"), [lookup_request test_config Template])
  /\ is_request_exception (Exn KeyError "'id'") = false
  /\ provision test_config net_missing_id (provision_request "testhost") [] =
     ((500%Z,
       JDict [("success", JBool false); ("hostname", JStr "testhost");
              ("error", JStr "Unexpected error: 'id'")]),
      [lookup_request test_config Template])
  /\ contains "'id'" "Unexpected error: 'id'" = true.
Proof. repeat split. Qed.

(** C1, amended: an exception that leaves the body of the handler (raised
    while the request is read, by a hostname that is not a string, or by a
    result that is [None]) gives the response 500 with the fixed body
    [{"error": "Internal server error"}]; an unexpected exception raised
    inside the [try] block of [trigger_awx_job] is reported as a failure, and
    the 500 response carries ["Unexpected error: "] followed by the text of
    the exception. *)
Theorem provision_unexpected_exception (cfg : Config) (net : network)
        (req : HttpRequest) (calls : list Request) :
  (forall e calls',
     provision_body cfg net req calls = (Raised e, calls') ->
     provision cfg net req calls =
     ((500%Z, JDict [("error", JStr "Internal server error")]), calls'))
  /\ (forall raw h e calls',
       extract_hostname req = Returned (JStr raw) ->
       sanitize_hostname cfg (Some raw) = Some h ->
       trigger_awx_job_body cfg net h calls = (Raised e, calls') ->
       is_request_exception e = false ->
       provision cfg net req calls =
       ((500%Z,
         JDict [("success", JBool false); ("hostname", JStr h);
                ("error", JStr ("Unexpected error: " ++ exn_msg e))]),
        calls')).
Proof.
  split.
  - intros e calls' H. unfold provision. now rewrite H.
  - intros raw h e calls' E S B U.
    apply (provision_failure _ _ _ _ _ _ _ _ E S).
    rewrite (trigger_awx_job_raised _ _ _ _ _ _ B). unfold on_exception.
    assert (T : is_timeout e = false).
    { unfold is_timeout, is_request_exception in *.
      destruct (exn_class_of e); congruence. }
    now rewrite T, U.
Qed.

Lemma provision_unexpected_exception_witness :
  provision test_config net_timeout (post_json (JDict [("hostname", JNum 123)])) [] =
    ((500%Z, JDict [("error", JStr "Internal server error")]), [])
  /\ provision test_config net_missing_id (provision_request "testhost") [] =
     ((500%Z,
       JDict [("success", JBool false); ("hostname", JStr "testhost");
              ("error", JStr "Unexpected error: 'id'")]),
      [lookup_request test_config Template]).
Proof.
  split.
  - apply (proj1 (provision_unexpected_exception test_config net_timeout
                    (post_json (JDict [("hostname", JNum 123)])) [])
             (Exn AttributeError "'int' object has no attribute 'strip'")).
    reflexivity.
  - apply (proj2 (provision_unexpected_exception test_config net_missing_id
                    (provision_request "testhost") [])
             "testhost" "testhost" (Exn KeyError "'id'")); reflexivity.
Defined.

End ClientFacts.

(** ** The rate limiter *)

Module LimiterFacts.
Import PyStr Py Requests Client Handler Limiter Fixtures.

Lemma key_eqb_refl (k : key) : key_eqb k k = true.
Proof. destruct k; simpl; [apply String.eqb_refl | reflexivity]. Qed.

Lemma consume_same (lim : rate_limit) (st : store) (k : key) (now : Z) :
  consume lim st k now k = Some (hit lim (st k) now).
Proof. unfold consume. now rewrite key_eqb_refl. Qed.

Lemma consume_other (lim : rate_limit) (st : store) (k k' : key) (now : Z) :
  key_eqb k' k = false -> consume lim st k now k' = st k'.
Proof. intros H. unfold consume. now rewrite H. Qed.

Lemma used_consume_same (lim : rate_limit) (st : store) (k : key) (now : Z) :
  (0 < period lim)%Z ->
  used (consume lim st k now) k now = S (used st k now).
Proof.
  intros P. unfold used. rewrite consume_same. unfold hit.
  assert (H : (now <? now + period lim)%Z = true) by (apply Z.ltb_lt; lia).
  destruct (st k) as [c|]; cbn [expires count]; [|now rewrite H].
  destruct (now <? expires c)%Z eqn:E; cbn [expires count]; now rewrite ?E, ?H.
Qed.

Lemma used_consume_other (lim : rate_limit) (st : store) (k k' : key)
      (now t : Z) :
  key_eqb k' k = false -> used (consume lim st k now) k' t = used st k' t.
Proof. intros H. unfold used. now rewrite consume_other. Qed.






(** A request without a hostname, or with one that the sanitizer rejects,
    is answered 400 by the handler, which makes no outbound call. *)
Lemma provision_bad_hostname (cfg : Config) (net : network) (req : HttpRequest)
      (calls : list Request) :
  (exists v, extract_hostname req = Returned v /\ truthy v = false)
  \/ (exists raw, extract_hostname req = Returned (JStr raw)
                  /\ Sanitizer.sanitize_hostname cfg (Some raw) = None) ->
  exists body, provision cfg net req calls = ((400%Z, body), calls).
Proof.
  unfold provision, provision_body, bind, lift, ret.
  intros [(v & E & T) | (raw & E & S)]; rewrite E.
  - rewrite T. cbn [negb]. eauto.
  - destruct (truthy (JStr raw)) eqn:T; cbn [negb]; [|eauto].
    unfold sanitize_hostname_value. rewrite T, S. cbn [negb]. eauto.
Qed.

(** C2: the limits are checked before the handler body runs: a rejected
    request is answered 429 whatever it holds, and a request that the handler
    answers with 400 (hostname missing or invalid) has by then consumed one
    unit of the quota of its client and one unit of the global quota. *)
Theorem provision_endpoint_counts_invalid (cfg : Config) (net : network)
        (st : store) (now : Z) (req : HttpRequest) (calls : list Request)
        (body : json) :
  (0 < period (PER_IP_RATE_LIMIT cfg))%Z ->
  (0 < period (GLOBAL_RATE_LIMIT cfg))%Z ->
  fst (provision cfg net req calls) = (400%Z, body) ->
  (grant cfg st now (remote_addr req) = None ->
   provision_endpoint cfg net st now req calls =
   (ratelimit_handler JNull, st, calls))
  /\ (has_capacity (PER_IP_RATE_LIMIT cfg) st (Client (remote_addr req)) now
      = true ->
      has_capacity (GLOBAL_RATE_LIMIT cfg) st Global now = true ->
      exists st',
        provision_endpoint cfg net st now req calls =
        ((400%Z, body), st', snd (provision cfg net req calls))
        /\ used st' (Client (remote_addr req)) now =
           S (used st (Client (remote_addr req)) now)
        /\ used st' Global now = S (used st Global now)).
Proof.
  intros Pi Pg R. split.
  - intros G. unfold provision_endpoint. now rewrite G.
  - intros Ci Cg. eexists. unfold provision_endpoint, grant.
    rewrite Ci, Cg. cbn [andb].
    destruct (provision cfg net req calls) as [response calls'].
    cbn [fst snd] in *. subst response. split; [reflexivity|]. split.
    + rewrite used_consume_other by reflexivity.
      now apply used_consume_same.
    + rewrite used_consume_same by assumption.
      now rewrite used_consume_other by reflexivity.
Qed.

Lemma provision_endpoint_counts_invalid_witness :
  exists st',
    provision_endpoint test_config net_timeout empty_store 0
                       (post_json (JDict [])) [] =
    ((400%Z, JDict [("error", JStr "hostname parameter is required")]), st', [])
    /\ used st' (Client "127.0.0.1") 0 = 1
    /\ used st' Global 0 = 1.
Proof.
  apply (proj2 (provision_endpoint_counts_invalid test_config net_timeout
                  empty_store 0 (post_json (JDict [])) []
                  (JDict [("error", JStr "hostname parameter is required")])
                  eq_refl eq_refl eq_refl)); reflexivity.
Defined.

Example grants_default_limit :
  grants untouched test_config empty_store
         [(0%Z, "10.0.0.1"); (10%Z, "10.0.0.1"); (20%Z, "10.0.0.2");
          (299%Z, "10.0.0.1"); (300%Z, "10.0.0.1")]
  = [true; false; true; false; true].
Proof. vm_compute. reflexivity. Qed.

(** With a limiter that counts the global quota first, the rejected request
    of a client uses up a unit of the global quota: the next client is
    rejected too, until the window of the global quota is over. *)
Example grants_counted_global_first :
  grants (counted true) shared_minute_config empty_store
         [(0%Z, "10.0.0.1"); (1%Z, "10.0.0.1"); (2%Z, "10.0.0.2");
          (59%Z, "10.0.0.2"); (60%Z, "10.0.0.2")]
  = [true; false; false; false; true]
  /\ grants untouched shared_minute_config empty_store
         [(0%Z, "10.0.0.1"); (1%Z, "10.0.0.1"); (2%Z, "10.0.0.2")]
     = [true; false; true].
Proof. vm_compute. split; reflexivity. Qed.










Lemma after_app (r : rejection) (cfg : Config) (a b : list (Z * string)) :
  forall st : store,
    after r cfg st (a ++ b) = after r cfg (after r cfg st a) b.
Proof.
  induction a as [|[t addr] a IH]; intros st; cbn [app after]; [reflexivity|].
  destruct (grant cfg st t addr) as [st'|]; apply IH.
Qed.











End LimiterFacts.

(** ** The sanitizer accepts the host names of RFC 1123 and nothing else *)

Module SanitizerExact.
Import PyStr Re Sanitizer Rfc1123 Fixtures StrFacts ReFacts SanitizerFacts.
Import Rfc1123Facts.

Lemma Lang_Upto_length (neg : bool) (items : list class_item) (n : nat) :
  forall m, Lang (Upto n (Class neg items)) m -> String.length m <= n.
Proof.
  induction n as [|n IH]; intros m H; cbn [Upto] in H.
  - apply Lang_Eps in H. subst. simpl. lia.
  - apply Lang_Alt in H as [H|H].
    + apply Lang_Eps in H. subst. simpl. lia.
    + apply Lang_Cat in H as (s1 & s2 & -> & H1 & H2).
      apply Lang_Class in H1 as (c & -> & _). apply IH in H2. simpl. lia.
Qed.

Lemma label_re_within : within is_label_char label_re.
Proof.
  assert (A : forall c, class_mem false alnum c = true -> is_label_char c = true)
    by (intros c; each_char c).
  assert (B : forall c, class_mem false (alnum ++ [Chr "-"]) c = true ->
                        is_label_char c = true) by (intros c; each_char c).
  unfold label_re, Opt. cbn [within]. repeat split; try assumption;
    try (apply within_Upto; exact B).
Qed.

Lemma Lang_label_length (l : string) :
  Lang label_re l -> 1 <= String.length l <= 63.
Proof.
  intros H. apply Lang_Cat in H as (s1 & s2 & -> & H1 & H2).
  apply Lang_Class in H1 as (c & -> & _).
  apply Lang_Alt in H2 as [H2|H2].
  - apply Lang_Eps in H2. subst. simpl. lia.
  - apply Lang_Cat in H2 as (m & e & -> & Hm & He).
    apply Lang_Class in He as (d & -> & _). apply Lang_Upto_length in Hm.
    simpl. rewrite length_append. simpl. lia.
Qed.

(** A word of the label pattern is a label of RFC 1123. *)
Lemma Lang_label_valid (l : string) : Lang label_re l -> valid_label l = true.
Proof.
  intros H. unfold valid_label.
  pose proof (Lang_label_length l H) as [L1 L2].
  pose proof (Lang_within _ _ _ label_re_within H) as A.
  pose proof (Lang_label_last l H) as E.
  destruct (Lang_label_first l H) as (c & l' & -> & F).
  apply Nat.leb_le in L1, L2. rewrite L1, L2, A, E. cbn [first_char holds].
  now rewrite F.
Qed.

Lemma label_char_not_dot (c : ascii) :
  is_label_char c = true -> Ascii.eqb c "." = false.
Proof. each_char c. Qed.

(** Splitting at the dots leaves a leading run of label characters in the
    first piece. *)
Lemma split_dots_label (l t : string) :
  all_chars is_label_char l = true ->
  split_dots (l ++ t) =
  match split_dots t with
  | l0 :: ls => (l ++ l0) :: ls
  | [] => [l]
  end.
Proof.
  intros A. induction l as [|c l IH]; cbn [append].
  - destruct (split_dots t) eqn:E; [now apply split_dots_nonempty in E|].
    reflexivity.
  - simpl in A. apply andb_true_iff in A as (Hc & A).
    cbn [split_dots]. rewrite (label_char_not_dot c Hc), (IH A).
    destruct (split_dots t); reflexivity.
Qed.

Lemma Lang_label_chars (l : string) :
  Lang label_re l -> all_chars is_label_char l = true.
Proof. apply Lang_within, label_re_within. Qed.

Lemma Lang_dot_labels_valid (t : string) :
  Lang (Star dot_label) t ->
  t = "" \/ exists t', t = String "." t'
                       /\ forallb valid_label (split_dots t') = true.
Proof.
  intros H. remember (Star dot_label) as r eqn:Er.
  induction H as [| | | | | |r0 s1 s2 H1 _ H2 IH2]; try discriminate.
  - now left.
  - injection Er as ->. right.
    apply Lang_Cat in H1 as (d & l & -> & Hd & Hl).
    apply Lang_Lit in Hd. subst d.
    pose proof (Lang_label_valid l Hl) as V.
    pose proof (Lang_label_chars l Hl) as A.
    destruct (IH2 eq_refl) as [-> | (t2 & -> & V2)].
    + exists l. rewrite append_nil_r. split; [reflexivity|].
      rewrite <- (append_nil_r l), (split_dots_label l "" A).
      cbn. now rewrite !append_nil_r, V.
    + exists (l ++ String "." t2). split.
      * reflexivity.
      * rewrite (split_dots_label l _ A). cbn [split_dots].
        rewrite Ascii.eqb_refl. cbn [forallb].
        now rewrite append_nil_r, V, V2.
Qed.

(** A word of the pattern of the source is a host name of RFC 1123. *)
Lemma Lang_rfc1123 (x : string) :
  Lang (body hostname_pattern) x -> rfc1123_hostname x = true.
Proof.
  intros H. apply Lang_Cat in H as (l & t & -> & Hl & Ht).
  pose proof (Lang_label_valid l Hl) as V.
  pose proof (Lang_label_chars l Hl) as A.
  unfold rfc1123_hostname. rewrite (split_dots_label l t A).
  apply Lang_dot_labels_valid in Ht as [-> | (t' & -> & V')].
  - cbn. now rewrite append_nil_r, V.
  - cbn [split_dots]. rewrite Ascii.eqb_refl. cbn [forallb].
    now rewrite append_nil_r, V, V'.
Qed.

Lemma rstrip_last (s : string) :
  rstrip s = "" \/ holds (fun c => negb (isspace c)) (last_char (rstrip s)) = true.
Proof.
  induction s as [|c s IH]; [now left|]. cbn [rstrip].
  destruct (rstrip s) as [|d r].
  - destruct (isspace c) eqn:E; [now left|]. right. cbn. now rewrite E.
  - right. destruct IH as [IH|IH]; [discriminate | exact IH].
Qed.

Lemma last_char_lower (s : string) :
  last_char (lower s) = option_map lower_char (last_char s).
Proof.
  induction s as [|c s IH]; [reflexivity|].
  destruct s as [|d s]; [reflexivity | exact IH].
Qed.

(** A trimmed and lowercased string does not end with a newline. *)
Lemma normalised_no_newline (raw y : string) :
  lower (strip raw) <> y ++ String LF "".
Proof.
  intros E. assert (L : last_char (lower (strip raw)) = Some LF)
    by (rewrite E; now rewrite last_char_append by discriminate).
  rewrite last_char_lower in L. unfold strip in L.
  destruct (rstrip_last (lstrip raw)) as [R|R].
  - rewrite R in L. discriminate.
  - destruct (last_char (rstrip (lstrip raw))) as [c|]; [|discriminate].
    cbn in L, R. injection L as L. rewrite <- isspace_lower_char, L in R.
    discriminate.
Qed.

Lemma at_dollar_inv (rest : string) :
  at_dollar rest = true -> rest = "" \/ rest = String LF "".
Proof.
  destruct rest as [|c rest]; [now left|]. destruct rest; [|discriminate].
  cbn. intros H. apply Ascii.eqb_eq in H. subst. now right.
Qed.

(** On a trimmed and lowercased string [re.match] of the pattern of the
    source decides membership in RFC 1123. *)
Lemma hostname_pattern_normalised (raw : string) :
  re_match hostname_pattern (lower (strip raw)) =
  rfc1123_hostname (lower (strip raw)).
Proof.
  destruct (rfc1123_hostname (lower (strip raw))) eqn:V.
  - apply match_here_spec. exists (lower (strip raw)), "".
    split; [now rewrite append_nil_r|].
    split; [now apply rfc1123_Lang | reflexivity].
  - destruct (re_match hostname_pattern (lower (strip raw))) eqn:M;
      [|reflexivity].
    apply match_here_spec in M as (m & rest & E & L & D).
    apply at_dollar_inv in D as [-> | ->].
    + rewrite append_nil_r in E. subst m. apply Lang_rfc1123 in L. congruence.
    + now apply normalised_no_newline in E.
Qed.

(** X1: [sanitize_hostname] accepts exactly the strings whose trimmed and
    lowercased form is a host name of RFC 1123 with a length inside the
    configured bounds, and returns that form. *)
Theorem sanitize_hostname_exact (cfg : Config) (raw x : string) :
  sanitize_hostname cfg (Some raw) = Some x <->
  x = lower (strip raw)
  /\ (MIN_HOSTNAME_LENGTH cfg <= len x <= MAX_HOSTNAME_LENGTH cfg)%Z
  /\ rfc1123_hostname x = true.
Proof.
  rewrite sanitize_hostname_Some. split.
  - intros (_ & -> & B & M & _). rewrite hostname_pattern_normalised in M.
    auto.
  - intros (-> & B & V). split.
    + intros ->. discriminate.
    + split; [reflexivity|]. split; [exact B|].
      split; [now rewrite hostname_pattern_normalised|].
      now apply rfc1123_not_suspicious.
Qed.

(** X2: the loop over the suspicious patterns never rejects anything: the
    result of [sanitize_hostname] is decided by the emptiness test, the
    length test and the match of the RFC 1123 pattern alone. *)
Theorem suspicious_patterns_redundant (cfg : Config) (raw : string) :
  sanitize_hostname cfg (Some raw) =
  let hostname := lower (strip raw) in
  if (raw =? "")%string
     || (len hostname <? MIN_HOSTNAME_LENGTH cfg)%Z
     || (len hostname >? MAX_HOSTNAME_LENGTH cfg)%Z
     || negb (re_match hostname_pattern hostname)
  then None
  else Some hostname.
Proof.
  destruct raw as [|c raw]; [reflexivity|].
  rewrite sanitize_hostname_nonempty by discriminate. cbv zeta.
  cbn [String.eqb orb].
  set (h := lower (strip (String c raw))).
  destruct ((len h <? MIN_HOSTNAME_LENGTH cfg)%Z
            || (len h >? MAX_HOSTNAME_LENGTH cfg)%Z); cbn [orb]; [reflexivity|].
  destruct (re_match hostname_pattern h) eqn:M; cbn [negb]; [|reflexivity].
  unfold h in *. rewrite hostname_pattern_normalised in M.
  now rewrite (rfc1123_not_suspicious _ M).
Qed.

(** X3: [re.match] of the pattern of the source accepts the host names of
    RFC 1123 and, because [$] also matches before a final newline, the same
    names followed by one newline; it accepts nothing else. *)
Theorem hostname_pattern_matches (x : string) :
  re_match hostname_pattern x = true <->
  rfc1123_hostname x = true
  \/ exists y, x = y ++ String LF "" /\ rfc1123_hostname y = true.
Proof.
  unfold re_match. rewrite match_here_spec. cbn [anchor_end end_ok]. split.
  - intros (m & rest & -> & L & D). apply Lang_rfc1123 in L.
    apply at_dollar_inv in D as [-> | ->].
    + left. now rewrite append_nil_r.
    + right. now exists m.
  - intros [V | (y & -> & V)].
    + exists x, "". split; [now rewrite append_nil_r|].
      split; [now apply rfc1123_Lang | reflexivity].
    + exists y, (String LF ""). split; [reflexivity|].
      split; [now apply rfc1123_Lang | reflexivity].
Qed.

Lemma blank_rejected (cfg : Config) (raw : string) :
  strip raw = "" -> sanitize_hostname cfg (Some raw) = None.
Proof.
  intros E. destruct (sanitize_hostname cfg (Some raw)) as [x|] eqn:S;
    [|reflexivity].
  apply sanitize_hostname_Some in S as (_ & -> & _ & M & _).
  rewrite E in M. discriminate.
Qed.

(** X4: a string made of blanks only is rejected, also by a configuration
    whose minimum length is 0: the empty string that trimming leaves passes
    the length test and fails the pattern. *)
Theorem sanitize_hostname_blank (cfg : Config) (raw : string) :
  strip raw = "" ->
  sanitize_hostname cfg (Some raw) = None
  /\ re_match hostname_pattern (lower (strip raw)) = false.
Proof.
  intros E. split; [now apply blank_rejected|]. now rewrite E.
Qed.

Lemma sanitize_hostname_blank_witness :
  sanitize_hostname lenient_config (Some "   ") = None.
Proof.
  apply (proj1 (sanitize_hostname_blank lenient_config "   " eq_refl)).
Defined.

(** X5: a name with a label of more than 63 characters is rejected whatever
    the configured maximum length is. *)
Theorem sanitize_hostname_long_label (cfg : Config) (raw : string) :
  existsb (fun l => 63 <? String.length l)%nat
          (split_dots (lower (strip raw))) = true ->
  sanitize_hostname cfg (Some raw) = None.
Proof.
  intros H. destruct (sanitize_hostname cfg (Some raw)) as [x|] eqn:S;
    [|reflexivity].
  apply sanitize_hostname_Some in S as (_ & -> & _ & M & _).
  rewrite hostname_pattern_normalised in M. unfold rfc1123_hostname in M.
  apply existsb_exists in H as (l & I & L).
  rewrite forallb_forall in M. specialize (M l I). unfold valid_label in M.
  apply Nat.ltb_lt in L.
  assert (F : (String.length l <=? 63)%nat = false) by (apply Nat.leb_gt; lia).
  rewrite F in M. rewrite andb_false_r in M. discriminate.
Qed.

Lemma sanitize_hostname_long_label_witness :
  sanitize_hostname lenient_config
    (Some ("host." ++ repeat_char "a" 64 ++ ".example.com")) = None.
Proof.
  apply (sanitize_hostname_long_label lenient_config
           ("host." ++ repeat_char "a" 64 ++ ".example.com")).
  vm_compute. reflexivity.
Defined.

(** X6: the result of [sanitize_hostname] does not depend on the case of
    the letters nor on blanks around the name. *)
Theorem sanitize_hostname_case_and_blanks (cfg : Config) (raw : string) :
  sanitize_hostname cfg (Some (lower raw)) = sanitize_hostname cfg (Some raw)
  /\ sanitize_hostname cfg (Some (strip raw)) = sanitize_hostname cfg (Some raw).
Proof.
  split.
  - destruct raw as [|c raw]; [reflexivity|].
    rewrite !sanitize_hostname_nonempty by discriminate.
    now rewrite lower_strip, lower_idem.
  - destruct raw as [|c raw]; [reflexivity|].
    destruct (strip (String c raw)) as [|d s] eqn:E.
    + symmetry. now apply blank_rejected.
    + rewrite !sanitize_hostname_nonempty by discriminate.
      rewrite <- E. now rewrite strip_idem.
Qed.

End SanitizerExact.

(** ** Configuration, client and handler together *)

Module RelayFacts.
Import PyStr Re Py Requests Client Handler Sanitizer Rfc1123 Fixtures.
Import StrFacts SanitizerFacts Rfc1123Facts ClientFacts SanitizerExact.

(** The calls of one branch of the [try] block: the lookup, and a launch
    only for an identifier that the lookup resolved. *)
Lemma launch_protocol (cfg : Config) (net : network) (k : kind) (h : string)
      (calls : list Request) :
  snd (launch cfg net k h calls) = (calls ++ [lookup_request cfg k])%list
  \/ exists template_id,
       resolves cfg net k template_id
       /\ snd (launch cfg net k h calls) =
          (calls ++ [lookup_request cfg k;
                     launch_request cfg k template_id h])%list.
Proof.
  unfold launch, bind, send, lift, ret, resolves.
  destruct (net (lookup_request cfg k)) as [response|e] eqn:N; cbn [snd];
    [|now left].
  destruct (raise_for_status response) as [[]|e] eqn:R; [|now left].
  destruct (json_body response) as [found|e] eqn:J; [|now left].
  destruct (py_get found "results" (JList [])) as [templates|e] eqn:G;
    [|now left].
  destruct (truthy templates) eqn:T; cbn [negb snd]; [|now left].
  destruct (py_getitem_0 templates) as [first|e] eqn:F; [|now left].
  destruct (py_getitem first "id") as [template_id|e] eqn:I; [|now left].
  right. exists template_id. split.
  { exists response, found, templates, first. repeat split; assumption. }
  assert (A : ((calls ++ [lookup_request cfg k])
               ++ [launch_request cfg k template_id h])%list
              = (calls ++ [lookup_request cfg k;
                           launch_request cfg k template_id h])%list)
    by now rewrite <- app_assoc.
  destruct (net (launch_request cfg k template_id h)) as [response'|e];
    cbn [snd]; [|exact A].
  destruct (raise_for_status response'); [|exact A].
  destruct (json_body response') as [job_data|e]; [|exact A].
  destruct (py_get job_data "id" JNull); exact A.
Qed.

Lemma on_exception_calls (e : exn) (calls : list Request) :
  exists error, on_exception e calls = (Returned (failure error), calls).
Proof.
  unfold on_exception, ret. destruct (is_timeout e); [eauto|].
  destruct (is_request_exception e); eauto.
Qed.

(** [trigger_awx_job] returns, and what it returns: [None] without a launch
    mode, a failure or a success of the configured mode otherwise. *)
Lemma trigger_result (cfg : Config) (net : network) (h : string)
      (calls : list Request) :
  exists r,
    trigger_awx_job cfg net h calls =
    (Returned r, snd (trigger_awx_job_body cfg net h calls))
    /\ match configured_kind cfg with
       | None => r = JNull
       | Some k => (exists error, r = failure error)
                   \/ (exists job_id, r = success job_id k h)
       end.
Proof.
  unfold trigger_awx_job, try_except, trigger_awx_job_body.
  destruct (configured_kind cfg) as [k|]; [|now exists JNull].
  destruct (launch_outcome cfg net k h calls) as (_ & _ & _ & R).
  destruct (launch cfg net k h calls) as [[r|e] c]; cbn [fst snd] in *.
  - exists r. split; [reflexivity|].
    destruct (R r eq_refl) as [-> | (job_id & ->)]; [left | right]; eauto.
  - destruct (on_exception_calls e c) as (error & ->). exists (failure error).
    split; [reflexivity|]. left. eauto.
Qed.

Lemma trigger_made (cfg : Config) (net : network) (h : string)
      (calls : list Request) :
  exists made,
    snd (trigger_awx_job cfg net h calls) = (calls ++ made)%list
    /\ (made = []
        \/ exists k,
             configured_kind cfg = Some k
             /\ (made = [lookup_request cfg k]
                 \/ exists template_id,
                      resolves cfg net k template_id
                      /\ made = [lookup_request cfg k;
                                 launch_request cfg k template_id h])).
Proof.
  destruct (trigger_result cfg net h calls) as (r & -> & _). cbn [snd].
  unfold trigger_awx_job_body.
  destruct (configured_kind cfg) as [k|] eqn:K.
  - destruct (launch_protocol cfg net k h calls) as [E | (id & R & E)];
      rewrite E; eexists; split; try reflexivity; right; exists k;
      (split; [reflexivity|]); [now left | right; eauto].
  - exists []. cbn. rewrite app_nil_r. auto.
Qed.

(** The last statement of the handler makes no call and answers 200 or
    500. *)
Lemma respond_outcome (h : string) (r : json) (calls : list Request) :
  snd (respond h r calls) = calls
  /\ forall response, fst (respond h r calls) = Returned response ->
                      fst response = 200%Z \/ fst response = 500%Z.
Proof.
  unfold respond, bind, lift, ret.
  destruct (py_getitem r "success") as [succeeded|e]; cbn [fst snd];
    [|split; [reflexivity | discriminate]].
  destruct (truthy succeeded).
  - destruct (py_get r "job_id" JNull); cbn [fst snd];
      [|split; [reflexivity | discriminate]].
    destruct (py_get r "job_type" JNull); cbn [fst snd];
      [|split; [reflexivity | discriminate]].
    split; [reflexivity|]. intros response [= <-]. now left.
  - destruct (py_get r "error" JNull); cbn [fst snd];
      [|split; [reflexivity | discriminate]].
    split; [reflexivity|]. intros response [= <-]. now right.
Qed.

(** The handler once its request holds a hostname that the sanitizer
    accepts. *)
Lemma provision_valid (cfg : Config) (net : network) (req : HttpRequest)
      (raw h : string) (calls : list Request) :
  extract_hostname req = Returned (JStr raw) ->
  sanitize_hostname cfg (Some raw) = Some h ->
  exists r,
    trigger_awx_job cfg net h calls =
    (Returned r, snd (trigger_awx_job cfg net h calls))
    /\ provision cfg net req calls =
       (match fst (respond h r (snd (trigger_awx_job cfg net h calls))) with
        | Returned response => response
        | Raised _ => internal_server_error
        end, snd (trigger_awx_job cfg net h calls)).
Proof.
  intros E S. destruct (trigger_result cfg net h calls) as (r & T & _).
  exists r. split; [rewrite T; reflexivity|].
  unfold provision. rewrite (provision_body_valid _ _ _ _ _ _ E S).
  unfold bind. rewrite T. cbn [snd].
  pose proof (respond_outcome h r (snd (trigger_awx_job_body cfg net h calls)))
    as [C _].
  destruct (respond h r (snd (trigger_awx_job_body cfg net h calls)))
    as [[response|e] c]; cbn [fst snd] in *; now subst.
Qed.



(** X7: [Config.validate] returns without raising exactly when the endpoint
    is set, a token or both user name and password are set, and exactly one
    of the template name and the workflow name is set. *)
Theorem validate_exact (cfg : Config) :
  validate cfg = None <->
  configured (AWX_API_ENDPOINT cfg) = true
  /\ (configured (AWX_TOKEN cfg) = true
      \/ configured (AWX_USERNAME cfg) = true
         /\ configured (AWX_PASSWORD cfg) = true)
  /\ configured (AWX_TEMPLATE_NAME cfg)
     = negb (configured (AWX_WORKFLOW_NAME cfg)).
Proof.
  unfold validate.
  destruct (configured (AWX_API_ENDPOINT cfg)),
    (configured (AWX_USERNAME cfg)), (configured (AWX_PASSWORD cfg)),
    (configured (AWX_TOKEN cfg)), (configured (AWX_TEMPLATE_NAME cfg)),
    (configured (AWX_WORKFLOW_NAME cfg)); cbn; split; intros H;
    try discriminate; auto;
    try (destruct H as (A & [B | [B C]] & D); discriminate).
Qed.





Lemma provision_internal_error (cfg : Config) (net : network)
      (req : HttpRequest) (calls : list Request) :
  (exists e, extract_hostname req = Raised e)
  \/ (exists v, extract_hostname req = Returned v /\ truthy v = true
                /\ type_name v <> "str") ->
  provision cfg net req calls = (internal_server_error, calls).
Proof.
  intros [(e & E) | (v & E & T & N)];
    unfold provision, provision_body, bind, lift; rewrite E; [reflexivity|].
  rewrite T. cbn [negb]. unfold sanitize_hostname_value. rewrite T.
  destruct v; try reflexivity. now contradiction N.
Qed.

(** The calls of the handler: none, or those of [trigger_awx_job] for the
    sanitized hostname of the request. *)
Lemma provision_made (cfg : Config) (net : network) (req : HttpRequest)
      (calls : list Request) :
  snd (provision cfg net req calls) = calls
  \/ exists raw h,
       extract_hostname req = Returned (JStr raw)
       /\ sanitize_hostname cfg (Some raw) = Some h
       /\ snd (provision cfg net req calls)
          = snd (trigger_awx_job cfg net h calls).
Proof.
  destruct (extract_hostname req) as [v|e] eqn:E.
  2:{ left. unfold provision, provision_body, bind, lift. now rewrite E. }
  destruct (truthy v) eqn:T.
  2:{ left.
      destruct (LimiterFacts.provision_bad_hostname cfg net req calls)
        as (body & ->); [left; eauto | reflexivity]. }
  assert (I : type_name v <> "str" -> snd (provision cfg net req calls) = calls).
  { intros N. rewrite provision_internal_error; [reflexivity|].
    right. now exists v. }
  destruct v as [|b|z|raw|l|d]; try (left; apply I; discriminate).
  destruct (sanitize_hostname cfg (Some raw)) as [h|] eqn:S.
  - right. exists raw, h. split; [reflexivity|]. split; [exact S|].
    destruct (provision_valid cfg net req raw h calls E S) as (r & _ & ->).
    reflexivity.
  - left.
    destruct (LimiterFacts.provision_bad_hostname cfg net req calls)
      as (body & ->); [right; eauto | reflexivity].
Qed.

(** X10: the handler answers 400 exactly when the request holds no hostname
    (none, or one that is false in Python) or a string that the sanitizer
    rejects; it then has made no outbound call. *)
Theorem provision_bad_request (cfg : Config) (net : network)
        (req : HttpRequest) (calls : list Request) :
  (fst (fst (provision cfg net req calls)) = 400%Z <->
   exists v, extract_hostname req = Returned v
             /\ (truthy v = false
                 \/ exists raw, v = JStr raw
                                /\ sanitize_hostname cfg (Some raw) = None))
  /\ (fst (fst (provision cfg net req calls)) = 400%Z ->
      snd (provision cfg net req calls) = calls).
Proof.
  assert (F : fst (fst (provision cfg net req calls)) = 400%Z ->
              exists v, extract_hostname req = Returned v
                        /\ (truthy v = false
                            \/ exists raw, v = JStr raw
                                 /\ sanitize_hostname cfg (Some raw) = None)).
  { intros H. destruct (extract_hostname req) as [v|e] eqn:E.
    2:{ unfold provision, provision_body, bind, lift in H. rewrite E in H.
        discriminate. }
    exists v. split; [reflexivity|].
    destruct (truthy v) eqn:T; [right | now left].
    assert (I : type_name v <> "str" -> False).
    { intros N. rewrite provision_internal_error in H; [discriminate|].
      right. now exists v. }
    destruct v as [|b|z|raw|l|d]; try (exfalso; apply I; discriminate).
    exists raw. split; [reflexivity|].
    destruct (sanitize_hostname cfg (Some raw)) as [h|] eqn:S; [|reflexivity].
    exfalso.
    destruct (provision_valid cfg net req raw h calls E S) as (r & _ & P).
    rewrite P in H. cbn [fst] in H.
    pose proof (respond_outcome h r (snd (trigger_awx_job cfg net h calls)))
      as [_ R].
    destruct (fst (respond h r (snd (trigger_awx_job cfg net h calls))))
      as [response|e]; [|discriminate].
    destruct (R response eq_refl); lia. }
  assert (B : (exists v, extract_hostname req = Returned v
                         /\ (truthy v = false
                             \/ exists raw, v = JStr raw
                                  /\ sanitize_hostname cfg (Some raw) = None)) ->
              exists body, provision cfg net req calls = ((400%Z, body), calls)).
  { intros (v & E & [T | (raw & -> & S)]);
      apply LimiterFacts.provision_bad_hostname; [left | right]; eauto. }
  split; [split|].
  - exact F.
  - intros H. destruct (B H) as (body & ->). reflexivity.
  - intros H. destruct (B (F H)) as (body & ->). reflexivity.
Qed.

(** X11: a hostname that is true in Python and not a string (a number, a
    list, an object), like a body that cannot be read, is not answered 400:
    the exception ends in the fixed 500 response, without any outbound
    call. *)
Theorem provision_non_string_hostname (cfg : Config) (net : network)
        (req : HttpRequest) (calls : list Request) :
  (exists e, extract_hostname req = Raised e)
  \/ (exists v, extract_hostname req = Returned v /\ truthy v = true
                /\ type_name v <> "str") ->
  provision cfg net req calls =
  ((500%Z, JDict [("error", JStr "Internal server error")]), calls).
Proof.
  apply provision_internal_error.
Qed.

Lemma provision_non_string_hostname_witness :
  provision test_config net_launches (post_json (JDict [("hostname", JNum 123)])) []
  = ((500%Z, JDict [("error", JStr "Internal server error")]), [])
  /\ provision test_config net_launches (post_json (JList [JStr "testhost"])) []
     = ((500%Z, JDict [("error", JStr "Internal server error")]), []).
Proof.
  split; apply provision_non_string_hostname.
  - right. exists (JNum 123). repeat split. discriminate.
  - left. eexists. reflexivity.
Defined.

(** X12: the handler reads nothing of a request but its hostname: a JSON
    body and a form that hold the same hostname, from whatever address, get
    the same response and cause the same calls. *)
Theorem provision_json_or_form (cfg : Config) (net : network)
        (addr addr' : string) (document : list (string * json))
        (fields : list (string * string)) (hostname : string)
        (calls : list Request) :
  lookup "hostname" document = Some (JStr hostname) ->
  form_get "hostname" fields = JStr hostname ->
  provision cfg net (mkHttpRequest addr (JsonBody (Returned (JDict document))))
            calls
  = provision cfg net (mkHttpRequest addr' (FormBody fields)) calls.
Proof.
  intros L F. unfold provision, provision_body, bind, lift, extract_hostname.
  cbn [body_of]. rewrite F. unfold py_get. rewrite L.
  destruct document; [discriminate | reflexivity].
Qed.

Lemma provision_json_or_form_witness :
  provision test_config net_launches
    (mkHttpRequest "10.0.0.1"
       (JsonBody (Returned (JDict [("note", JNull);
                                   ("hostname", JStr "testhost")])))) []
  = provision test_config net_launches
      (mkHttpRequest "10.0.0.2"
         (FormBody [("hostname", "testhost"); ("hostname", "other")])) [].
Proof.
  apply (provision_json_or_form test_config net_launches "10.0.0.1" "10.0.0.2"
           _ _ "testhost"); reflexivity.
Defined.

(** X13: whatever the request and the controller are, every POST that the
    handler makes carries as [limit] and as [target_hostname] the trimmed
    and lowercased hostname of the request, which is a host name of RFC 1123
    with a length inside the configured bounds. *)
Theorem provision_posts_valid_hostname (cfg : Config) (net : network)
        (req : HttpRequest) (calls : list Request) :
  exists made,
    snd (provision cfg net req calls) = (calls ++ made)%list
    /\ forall rq, In rq made -> req_method rq = POST ->
       exists raw h,
         extract_hostname req = Returned (JStr raw)
         /\ h = lower (strip raw)
         /\ rfc1123_hostname h = true
         /\ (MIN_HOSTNAME_LENGTH cfg <= len h <= MAX_HOSTNAME_LENGTH cfg)%Z
         /\ req_json rq =
            Some (JDict [("limit", JStr h);
                         ("extra_vars", JDict [("target_hostname", JStr h)])]).
Proof.
  destruct (provision_made cfg net req calls) as [E | (raw & h & E & S & P)].
  - exists []. rewrite E, app_nil_r. split; [reflexivity|]. intros rq [].
  - destruct (trigger_made cfg net h calls) as (made & M & C).
    exists made. split; [now rewrite P|]. intros rq I Hp.
    exists raw, h. split; [exact E|].
    apply sanitize_hostname_Some in S as (_ & X & B & R & _).
    split; [exact X|]. split.
    { rewrite X, <- hostname_pattern_normalised, <- X. exact R. }
    split; [exact B|].
    destruct C as [-> | (k & _ & [-> | (template_id & _ & ->)])].
    + destruct I.
    + destruct I as [<- | []]. discriminate.
    + destruct I as [<- | [<- | []]]; [discriminate | reflexivity].
Qed.


(** X15: a request with a valid hostname, a lookup that succeeds and a
    launch that is accepted give the response 200 with the sanitized
    hostname, the [id] of the launch response as [job_id] ([null] when the
    response has none) and the launch mode as [job_type], after exactly the
    lookup and the launch. *)
Theorem provision_success (cfg : Config) (net : network) (req : HttpRequest)
        (calls : list Request) (raw h : string) (k : kind)
        (template_id job_data job_id : json) (response : Response) :
  extract_hostname req = Returned (JStr raw) ->
  sanitize_hostname cfg (Some raw) = Some h ->
  configured_kind cfg = Some k ->
  resolves cfg net k template_id ->
  net (launch_request cfg k template_id h) = Returned response ->
  raise_for_status response = Returned tt ->
  json_body response = Returned job_data ->
  py_get job_data "id" JNull = Returned job_id ->
  provision cfg net req calls =
  ((200%Z,
    JDict [("success", JBool true); ("hostname", JStr h); ("job_id", job_id);
           ("job_type", JStr (match k with
                              | Template => "template"
                              | Workflow => "workflow"
                              end));
           ("message", JStr ("Job triggered successfully for " ++ h))]),
   (calls ++ [lookup_request cfg k; launch_request cfg k template_id h])%list).
Proof.
  intros E S K (response0 & found & templates & first & N & R & J & G & T & F & I)
         N' R' J' G'.
  unfold provision. rewrite (provision_body_valid _ _ _ _ _ _ E S).
  unfold bind at 1, trigger_awx_job, try_except, trigger_awx_job_body.
  rewrite K. unfold launch, bind, send, lift.
  rewrite N, R, J, G, T, F, I. cbn [negb]. rewrite N', R', J', G'.
  rewrite <- app_assoc. destruct k; reflexivity.
Qed.

Lemma provision_success_witness :
  provision test_config net_launches (provision_request " TestHost.Example.COM ") []
  = ((200%Z,
      JDict [("success", JBool true); ("hostname", JStr "testhost.example.com");
             ("job_id", JNum 42); ("job_type", JStr "template");
             ("message",
              JStr "Job triggered successfully for testhost.example.com")]),
     [lookup_request test_config Template;
      launch_request test_config Template (JNum 7) "testhost.example.com"]).
Proof.
  apply (provision_success test_config net_launches _ [] " TestHost.Example.COM "
           "testhost.example.com" Template (JNum 7) (JDict [("id", JNum 42)])
           (JNum 42) (ok 201 (JDict [("id", JNum 42)]))); try reflexivity.
  eexists _, _, _, _. repeat split.
Defined.


(** X17: how the handler reads a JSON body: a body that is false in Python
    ([null], an empty object or list, 0, the empty string) and an object
    without the key [hostname] are answered 400 with "hostname parameter is
    required"; a body that is true and not an object (a list, a number, a
    string) has no [get] and ends in the fixed 500 response.  No call is made
    in any of these cases. *)
Theorem provision_json_body (cfg : Config) (net : network) (addr : string)
        (data : json) (calls : list Request) :
  (truthy data = false
   \/ (exists document, data = JDict document
                        /\ lookup "hostname" document = None) ->
   provision cfg net (mkHttpRequest addr (JsonBody (Returned data))) calls =
   ((400%Z, JDict [("error", JStr "hostname parameter is required")]), calls))
  /\ (truthy data = true -> type_name data <> "dict" ->
      provision cfg net (mkHttpRequest addr (JsonBody (Returned data))) calls =
      ((500%Z, JDict [("error", JStr "Internal server error")]), calls)).
Proof.
  split.
  - intros H.
    assert (E : extract_hostname
                  (mkHttpRequest addr (JsonBody (Returned data)))
                = Returned JNull).
    { unfold extract_hostname. cbn [body_of].
      destruct (truthy data) eqn:T; [|reflexivity].
      destruct H as [H | (document & -> & L)]; [discriminate|].
      unfold py_get. now rewrite L. }
    unfold provision, provision_body, bind, lift. now rewrite E.
  - intros T N. apply provision_internal_error. left.
    unfold extract_hostname. cbn [body_of]. rewrite T.
    destruct data; try (eexists; reflexivity). now contradiction N.
Qed.

End RelayFacts.
